(** * gssnng.score_funs: per-cell gene-set scoring

    A shallow embedding of [gssnng/score_funs.py] and the proofs of the
    properties stated for it.  The development follows the source file
    top-down: numeric values, the numpy/statsmodels reductions the
    scoring functions call, the Python objects that flow between the
    functions, the seven scoring functions, [expr_format],
    [method_selector] and [scorefun]. *)

From Stdlib Require Import String Ascii ZArith QArith Qreduction Qabs Bool Lia Lqa List.
From Stdlib Require Qcanon.
Import ListNotations.

Local Open Scope Q_scope.

(** ** Numeric values

    numpy's [float64], idealised: a finite value is an exact rational
    (no rounding, no overflow, no underflow, a single zero); the three
    special values behave as IEEE 754 prescribes.  numpy's default
    error state only warns on a division by zero or an invalid
    operation, so these operations are total and yield [PInf], [NInf]
    or [NaN].  What is proved below of the scoring functions is their
    structure, the sign of what they return and their behaviour on
    special values and on failures; the digits of a rounded result are
    outside the idealisation. *)

Inductive float64 : Type :=
| Fin (q : Q)
| PInf
| NInf
| NaN.

(** Finite results are kept in lowest terms, so that equal numbers are
    equal terms. *)
Definition fin (q : Q) : float64 := Fin (Qred q).

Definition inf (negative : bool) : float64 :=
  if negative then NInf else PInf.

Definition Qneg_b (q : Q) : bool := (Qnum q <? 0)%Z.
Definition Qzero_b (q : Q) : bool := (Qnum q =? 0)%Z.

Definition is_nan (x : float64) : bool :=
  match x with NaN => true | _ => false end.

Definition is_finite (x : float64) : bool :=
  match x with Fin _ => true | _ => false end.

Definition f_add (x y : float64) : float64 :=
  match x, y with
  | NaN, _ | _, NaN => NaN
  | PInf, NInf | NInf, PInf => NaN
  | PInf, _ | _, PInf => PInf
  | NInf, _ | _, NInf => NInf
  | Fin a, Fin b => fin (a + b)
  end.

Definition f_sub (x y : float64) : float64 :=
  match x, y with
  | NaN, _ | _, NaN => NaN
  | PInf, PInf | NInf, NInf => NaN
  | PInf, _ | _, NInf => PInf
  | NInf, _ | _, PInf => NInf
  | Fin a, Fin b => fin (a - b)
  end.

Definition f_mul (x y : float64) : float64 :=
  match x, y with
  | NaN, _ | _, NaN => NaN
  | Fin a, Fin b => fin (a * b)
  | Fin a, PInf | PInf, Fin a => if Qzero_b a then NaN else inf (Qneg_b a)
  | Fin a, NInf | NInf, Fin a => if Qzero_b a then NaN else inf (negb (Qneg_b a))
  | PInf, PInf | NInf, NInf => PInf
  | PInf, NInf | NInf, PInf => NInf
  end.

Definition f_div (x y : float64) : float64 :=
  match x, y with
  | NaN, _ | _, NaN => NaN
  | Fin a, Fin b =>
      if Qzero_b b
      then (if Qzero_b a then NaN else inf (Qneg_b a))
      else fin (a / b)
  | Fin _, _ => Fin 0
  | PInf, Fin b => inf (Qneg_b b)
  | NInf, Fin b => inf (negb (Qneg_b b))
  | _, _ => NaN
  end.

Definition f_abs (x : float64) : float64 :=
  match x with
  | Fin a => fin (Qabs a)
  | PInf | NInf => PInf
  | NaN => NaN
  end.

(** Square root of a non-negative rational [n/d], as [sqrt (n*d) / d]
    with the integer root taken at a resolution of [2^-53]: exact on
    the squares of rationals, rounded down elsewhere. *)
Definition Qsqrt (q : Q) : Q :=
  let n := Qnum q in
  let d := Zpos (Qden q) in
  Qred (Z.sqrt (n * d * 4 ^ 53) # (Qden q * 2 ^ 53)).

Definition f_sqrt (x : float64) : float64 :=
  match x with
  | Fin a => if Qneg_b a then NaN else Fin (Qsqrt a)
  | PInf => PInf
  | NInf | NaN => NaN
  end.

(** [x <= y] on values that are not [NaN]. *)
Definition f_leb (x y : float64) : bool :=
  match x, y with
  | NInf, _ | _, PInf => true
  | Fin a, Fin b => Qle_bool a b
  | _, _ => false
  end.

Definition of_Z (z : Z) : float64 := Fin (inject_Z z).
Definition of_nat (n : nat) : float64 := of_Z (Z.of_nat n).

(** ** numpy and statsmodels reductions

    The library functions the scoring functions call, on a sequence of
    values.  [np.sum] adds from [0.0]; [np.mean], [np.std] and
    [np.median] of an empty sequence are [nan], as in numpy. *)

Module np.

Definition sum (a : list float64) : float64 :=
  fold_left f_add a (Fin 0).

Definition mean (a : list float64) : float64 :=
  f_div (sum a) (of_nat (length a)).

Definition abs (x : float64) : float64 := f_abs x.

(** Population standard deviation ([ddof = 0]): the root of the mean
    squared distance to the mean. *)
Definition std (a : list float64) : float64 :=
  let arrmean := mean a in
  let x := map (fun v => f_sub v arrmean) a in
  f_sqrt (mean (map (fun v => f_mul v v) x)).

Fixpoint insert (v : float64) (s : list float64) : list float64 :=
  match s with
  | [] => [v]
  | w :: s' => if f_leb v w then v :: s else w :: insert v s'
  end.

Definition sort (a : list float64) : list float64 :=
  fold_right insert [] a.

(** Middle element of the sorted values, or the mean of the two middle
    ones; [nan] as soon as one value is [nan]. *)
Definition median (a : list float64) : float64 :=
  if existsb is_nan a then NaN
  else
    let s := sort a in
    let n := length a in
    match n with
    | O => NaN
    | _ =>
        if Nat.even n
        then mean [nth (n / 2 - 1) s NaN; nth (n / 2) s NaN]
        else nth (n / 2) s NaN
    end.

End np.

(** [Gaussian.ppf(3/4.)], the default scale constant of
    [statsmodels.robust.scale.mad], as the decimal that prints for the
    float: 0.6744897501960817. *)
Definition Gaussian_ppf_3_4 : float64 :=
  fin (6744897501960817 # 10000000000000000).

(** [statsmodels.robust.scale.mad(a)] with its default arguments: the
    median of the absolute deviations from the median, divided by the
    scale constant. *)
Definition mad (a : list float64) : float64 :=
  let center := np.median a in
  np.median (map (fun v => f_div (np.abs (f_sub v center)) Gaussian_ppf_3_4) a).

(** ** Python objects and results *)

Inductive exn : Type :=
| TypeError
| KeyError
| IndexError
| AttributeError
| ValueError
| UnboundLocalError.

Inductive result (A : Type) : Type :=
| Ok (a : A)
| Raise (e : exn).

Arguments Ok {A} a.
Arguments Raise {A} e.

Definition bind {A B : Type} (r : result A) (k : A -> result B) : result B :=
  match r with
  | Ok a => k a
  | Raise e => Raise e
  end.

Notation "x <- r ;; k" := (bind r (fun x => k))
  (at level 61, r at next level, right associativity).

Fixpoint mapM {A B : Type} (f : A -> result B) (l : list A) : result (list B) :=
  match l with
  | [] => Ok []
  | a :: l' => b <- f a ;; bs <- mapM f l' ;; Ok (b :: bs)
  end.

(** A pandas Series: labelled values, in order.  Labels are gene
    identifiers.  [series_get] is the lookup by label of a Series whose
    labels are distinct, where it returns the one entry; on a repeated
    label it returns the first entry, while pandas returns all of
    them, so a statement about the values looked up holds of tables
    with distinct labels. *)
Definition Series : Type := list (string * float64).

Definition series_index (s : Series) : list string := map fst s.
Definition series_values (s : Series) : list float64 := map snd s.

Fixpoint series_get (s : Series) (j : string) : option float64 :=
  match s with
  | [] => None
  | (k, v) :: s' => if String.eqb j k then Some v else series_get s' j
  end.

(** One line of the expression/rank table. *)
Record row : Type := mk_row {
  gene : string;
  row_counts : float64;
  row_uprank : float64;
  row_dnrank : float64
}.

(** The table [x]: a pandas DataFrame indexed by gene identifier with
    the columns [counts], [uprank] and [dnrank]. *)
Definition DataFrame : Type := list row.

Definition index (x : DataFrame) : list string := map gene x.
Definition counts (x : DataFrame) : Series := map (fun r => (gene r, row_counts r)) x.
Definition uprank (x : DataFrame) : Series := map (fun r => (gene r, row_uprank r)) x.
Definition dnrank (x : DataFrame) : Series := map (fun r => (gene r, row_dnrank r)) x.

(** The gene set object: [gs.name], [gs.mode], [gs.genes_up],
    [gs.genes_dn].  The mode is the string the code compares. *)
Record GeneSet : Type := mk_geneset {
  name : string;
  mode : string;
  genes_up : list string;
  genes_dn : list string
}.

(** The objects passed to and returned by the scoring functions. *)
Local Unset Elimination Schemes.
Inductive pyobj : Type :=
| PNone
| PInt (z : Z)
| PFloat (v : float64)
| PStr (s : string)
| PTuple (items : list pyobj)
| PList (items : list pyobj)
| PSeries (s : Series)
| PFrame (x : DataFrame)
| PGeneSet (gs : GeneSet).
Local Set Elimination Schemes.

Definition floats (a : list float64) : pyobj := PList (map PFloat a).
Definition strs (a : list string) : pyobj := PList (map PStr a).

(** *** Operations of the language on these objects

    Only the operations the program performs are modelled.  Where an
    operation is applied to an object of a kind the program never
    passes there, the model reports [TypeError]. *)

(** A number as a float value; an integer is taken as the float of the
    same value. *)
Definition to_float (o : pyobj) : result float64 :=
  match o with
  | PFloat v => Ok v
  | PInt z => Ok (of_Z z)
  | _ => Raise TypeError
  end.

(** The values of a sequence handed to numpy or statsmodels, or
    iterated over: a list or tuple of numbers, or a Series. *)
Definition array_like (o : pyobj) : result (list float64) :=
  match o with
  | PList items | PTuple items => mapM to_float items
  | PSeries s => Ok (series_values s)
  | _ => Raise TypeError
  end.

(** The values a reduction ([np.sum], [np.mean], [np.std]) runs over.
    numpy hands the reduction of a Series over to pandas, which skips
    the [nan] entries; any other sequence is reduced as it is. *)
Definition reduction_values (o : pyobj) : result (list float64) :=
  match o with
  | PSeries s => Ok (filter (fun v => negb (is_nan v)) (series_values s))
  | _ => array_like o
  end.

Definition to_label (o : pyobj) : result string :=
  match o with
  | PStr s => Ok s
  | _ => Raise TypeError
  end.

(** The gene identifiers of a gene collection that is iterated over:
    a list or tuple of strings. *)
Definition genes_of (o : pyobj) : result (list string) :=
  match o with
  | PList items | PTuple items => mapM to_label items
  | _ => Raise TypeError
  end.

(** [o.index] where the program iterates or measures it.  A Series or a
    table has an index; on a list, tuple or string [.index] is a bound
    method, which is neither iterable nor sized. *)
Definition attr_index (o : pyobj) : result (list string) :=
  match o with
  | PSeries s => Ok (series_index s)
  | PFrame x => Ok (index x)
  | PList _ | PTuple _ | PStr _ => Raise TypeError
  | _ => Raise AttributeError
  end.

(** [o[0:n]] *)
Definition slice_to (o : pyobj) (n : nat) : result pyobj :=
  match o with
  | PSeries s => Ok (PSeries (firstn n s))
  | PFrame x => Ok (PFrame (firstn n x))
  | PList items => Ok (PList (firstn n items))
  | PTuple items => Ok (PTuple (firstn n items))
  | PStr s => Ok (PStr (String.substring 0 n s))
  | _ => Raise TypeError
  end.

(** [o[i]] for a tuple, a list or a string. *)
Definition getitem (o : pyobj) (i : nat) : result pyobj :=
  match o with
  | PTuple items | PList items =>
      match nth_error items i with
      | Some v => Ok v
      | None => Raise IndexError
      end
  | PStr s =>
      match String.get i s with
      | Some c => Ok (PStr (String c EmptyString))
      | None => Raise IndexError
      end
  | _ => Raise TypeError
  end.

(** [a + b] *)
Definition py_add (a b : pyobj) : result pyobj :=
  match a, b with
  | PFloat u, PFloat v => Ok (PFloat (f_add u v))
  | PFloat u, PInt z => Ok (PFloat (f_add u (of_Z z)))
  | PInt z, PFloat v => Ok (PFloat (f_add (of_Z z) v))
  | PInt y, PInt z => Ok (PInt (y + z))
  | PStr s, PStr t => Ok (PStr (s ++ t))
  | PTuple s, PTuple t => Ok (PTuple (s ++ t))
  | PList s, PList t => Ok (PList (s ++ t))
  | _, _ => Raise TypeError
  end.

(** [i > limit] for the loop counter [i]. *)
Definition int_gt (i : Z) (limit : pyobj) : result bool :=
  match limit with
  | PInt z => Ok (z <? i)%Z
  | PFloat v => Ok (negb (is_nan v) && negb (f_leb (of_Z i) v))
  | _ => Raise TypeError
  end.

Fixpoint enumerate_from {A : Type} (i : nat) (l : list A) : list (nat * A) :=
  match l with
  | [] => []
  | a :: l' => (i, a) :: enumerate_from (S i) l'
  end.

Definition enumerate {A : Type} (l : list A) : list (nat * A) :=
  enumerate_from 0 l.

(** [set(labels)] and [subset.intersection(gs)] *)
Definition set (labels : list string) : list string :=
  nodup string_dec labels.

Definition intersection (subset gs : list string) : list string :=
  filter (fun g => existsb (String.eqb g) gs) subset.

(** A dictionary with string keys. *)
Definition dict : Type := list (string * pyobj).

Fixpoint dict_get (d : dict) (k : string) : result pyobj :=
  match d with
  | [] => Raise KeyError
  | (k', v) :: d' => if String.eqb k k' then Ok v else dict_get d' k
  end.

(** *** Function definitions and calls

    A function is applied to the list of its positional arguments; a
    call with a number of arguments the definition does not accept
    raises [TypeError] before the body runs. *)

Definition pyfun : Type := list pyobj -> result pyobj.

Definition def1 (body : pyobj -> result pyobj) : pyfun :=
  fun args =>
    match args with
    | [a] => body a
    | _ => Raise TypeError
    end.

Definition def2 (body : pyobj -> pyobj -> result pyobj) : pyfun :=
  fun args =>
    match args with
    | [a; b] => body a b
    | _ => Raise TypeError
    end.

(** Three parameters and a fourth with a default value. *)
Definition def3_1 (body : pyobj -> pyobj -> pyobj -> pyobj -> result pyobj)
    (default : pyobj) : pyfun :=
  fun args =>
    match args with
    | [a; b; c] => body a b c default
    | [a; b; c; d] => body a b c d
    | _ => Raise TypeError
    end.

Definition def4 (body : pyobj -> pyobj -> pyobj -> pyobj -> result pyobj) : pyfun :=
  fun args =>
    match args with
    | [a; b; c; d] => body a b c d
    | _ => Raise TypeError
    end.

Definition pair (score dispersion : float64) : pyobj :=
  PTuple [PFloat score; PFloat dispersion].

(** ** The scoring functions *)

Definition summed_up : pyfun :=
  def1 (fun su =>
    a <- array_like su ;;
    let mad_su := mad a in
    r <- reduction_values su ;;
    let score := np.sum r in
    Ok (pair score mad_su)).

Definition median_score : pyfun :=
  def1 (fun su =>
    a <- array_like su ;;
    let cnts_med := np.median a in
    let mad_su := mad a in
    Ok (pair cnts_med mad_su)).

Definition average_score : pyfun :=
  def1 (fun su =>
    r <- reduction_values su ;;
    let cnts_mean := np.mean r in
    let std_su := np.std r in
    Ok (pair cnts_mean std_su)).

Definition mean_z : pyfun :=
  def2 (fun exprdat su =>
    e <- reduction_values exprdat ;;
    let vals_mean := np.mean e in
    let vals_std := np.std e in
    xs <- array_like su ;;
    let centered := map (fun x => f_div (np.abs (f_sub x vals_mean)) vals_std) xs in
    let score := np.mean centered in
    Ok (pair score vals_std)).

Definition robust_std : pyfun :=
  def2 (fun exprdat su =>
    e <- array_like exprdat ;;
    let cnts_med := np.median e in
    let mad_su := mad e in
    xs <- array_like su ;;
    let centered_cnts := map (fun x => f_div (np.abs (f_sub x cnts_med)) mad_su) xs in
    let score := np.median centered_cnts in
    Ok (pair score mad_su)).

(** The loop of [rank_biased_overlap] over [enumerate(gs)]: the prefix
    [y[0:(i+1)]] is scored first, the test [i > limit] comes after. *)
Fixpoint rbo_loop (y : pyobj) (gs : list string) (limit : pyobj)
    (items : list (nat * string)) (rbo_score : float64) : result float64 :=
  match items with
  | [] => Ok rbo_score
  | (i, gi) :: items' =>
      subrank <- slice_to y (i + 1) ;;
      labels <- attr_index subrank ;;
      let subset := set labels in
      let rbo_score := f_add rbo_score (of_nat (length (intersection subset gs))) in
      stop <- int_gt (Z.of_nat i) limit ;;
      if stop then Ok rbo_score
      else rbo_loop y gs limit items' rbo_score
  end.

Definition rank_biased_overlap : pyfun :=
  def3_1 (fun x su gs limit =>
    gs <- genes_of gs ;;
    let rbo_score := Fin 0 in
    let y := su in
    rbo_score <- rbo_loop y gs limit (enumerate gs) rbo_score ;;
    a <- array_like su ;;
    let mad_up := mad a in
    Ok (pair rbo_score mad_up))
  (PInt 100).

(** [expr_format]: the loop over the gene list, with the list [su]
    appended to and the counter [sig_len_up] decremented as in the
    source.  [exprdat[j]] raises [KeyError] on a label the column does
    not have. *)
Fixpoint expr_format_loop (x : DataFrame) (exprdat : Series)
    (geneset_genes : list string) (su : list float64) (sig_len_up : Z)
    : result (list float64 * Z) :=
  match geneset_genes with
  | [] => Ok (su, sig_len_up)
  | j :: rest =>
      if existsb (String.eqb j) (index x)
      then
        match series_get exprdat j with
        | Some v => expr_format_loop x exprdat rest (su ++ [v]) sig_len_up
        | None => Raise KeyError
        end
      else expr_format_loop x exprdat rest su (sig_len_up - 1)
  end.

Definition expr_format (x : DataFrame) (exprdat : Series)
    (geneset_genes : list string) : result (list float64 * Z) :=
  let sig_len_up := Z.of_nat (length geneset_genes) in
  expr_format_loop x exprdat geneset_genes [] sig_len_up.

(** The flag [ranked] as a caller may pass it. *)
Inductive flag : Type :=
| FBool (b : bool)
| FInt (z : Z)
| FFloat (v : float64)
| FNone
| FStr (s : string).

(** [ranked == True] and [ranked == False]: Python's [==] identifies
    the booleans with the numbers 1 and 0. *)
Definition flag_eq (ranked : flag) (b : bool) : bool :=
  match ranked with
  | FBool c => Bool.eqb c b
  | FInt z => (z =? (if b then 1 else 0))%Z
  | FFloat (Fin q) => Qeq_bool q (if b then 1 else 0)
  | FFloat _ | FNone | FStr _ => false
  end.

(** [dict(barcode=..., name=..., mode=..., score=..., var=...)] *)
Definition score_result (barcode : string) (gs : GeneSet) (score var : pyobj)
    : dict :=
  [ ("barcode", PStr barcode); ("name", PStr (name gs)); ("mode", PStr (mode gs));
    ("score", score); ("var", var) ]%string.

Section ScoreFuns.

(** [gssnng.util.normalisation], the collaborator [singscore] calls:
    [normalisation norm_method library_len score_list score sig_len]. *)
Variable normalisation :
  pyobj -> Z -> pyobj -> float64 -> pyobj -> result float64.

Definition singscore : pyfun :=
  def4 (fun x su sig_len norm_method =>
    r <- reduction_values su ;;
    let score_up := np.mean r in
    labels <- attr_index x ;;
    norm_up <- normalisation norm_method (Z.of_nat (length labels)) su score_up sig_len ;;
    let norm_up := f_sub norm_up (Fin (1 # 2)) in
    a <- array_like su ;;
    let mad_up := mad a in
    Ok (pair norm_up mad_up)).

Definition method_selector (gs : GeneSet) (x : DataFrame) (exprdat : Series)
    (geneset_genes : list string) (method : string) (method_params : dict)
    : result pyobj :=
  r <- expr_format x exprdat geneset_genes ;;
  let (su, sig_len) := r in
  if (method =? "singscore")%string then
    norm_method <- dict_get method_params "normalization" ;;
    singscore [PSeries exprdat; floats su; PInt sig_len; norm_method]
  else if (method =? "robust_std")%string then
    robust_std [PSeries exprdat; floats su]
  else if (method =? "summed_up")%string then
    summed_up [floats su]
  else if (method =? "median_score")%string then
    median_score [PSeries exprdat; floats su]
  else if (method =? "average_score")%string then
    average_score [PSeries exprdat; floats su]
  else if (method =? "mean_z")%string then
    mean_z [PSeries exprdat; floats su]
  else if (method =? "rank_biased_overlap")%string then
    rbo_depth <- dict_get method_params "rbo_depth" ;;
    rank_biased_overlap
      [PSeries exprdat; floats su; PGeneSet gs; PStr (mode gs); rbo_depth]
  else
    Ok (PStr "ERROR").

Definition scorefun (gs : GeneSet) (x : DataFrame) (method : string)
    (method_params : dict) (barcode : string) (ranked : flag) : result dict :=
  if (mode gs =? "UP")%string && flag_eq ranked false then
    res0 <- method_selector gs x (counts x) (genes_up gs) method method_params ;;
    score <- getitem res0 0 ;;
    var <- getitem res0 1 ;;
    Ok (score_result barcode gs score var)
  else if (mode gs =? "DN")%string && flag_eq ranked false then
    res0 <- method_selector gs x (counts x) (genes_dn gs) method method_params ;;
    score <- getitem res0 0 ;;
    var <- getitem res0 1 ;;
    Ok (score_result barcode gs score var)
  else if (mode gs =? "BOTH")%string && flag_eq ranked false then
    res0_up <- method_selector gs x (counts x) (genes_up gs) method method_params ;;
    res0_dn <- method_selector gs x (counts x) (genes_dn gs) method method_params ;;
    up0 <- getitem res0_up 0 ;;
    dn0 <- getitem res0_dn 0 ;;
    score <- py_add up0 dn0 ;;
    up1 <- getitem res0_up 1 ;;
    dn1 <- getitem res0_dn 1 ;;
    var <- py_add up1 dn1 ;;
    Ok (score_result barcode gs score var)
  else if (mode gs =? "UP")%string && flag_eq ranked true then
    res0 <- method_selector gs x (uprank x) (genes_up gs) method method_params ;;
    score <- getitem res0 0 ;;
    var <- getitem res0 1 ;;
    Ok (score_result barcode gs score var)
  else if (mode gs =? "DN")%string && flag_eq ranked true then
    res0 <- method_selector gs x (dnrank x) (genes_dn gs) method method_params ;;
    score <- getitem res0 0 ;;
    var <- getitem res0 1 ;;
    Ok (score_result barcode gs score var)
  else if (mode gs =? "BOTH")%string && flag_eq ranked true then
    res0_up <- method_selector gs x (uprank x) (genes_up gs) method method_params ;;
    res0_dn <- method_selector gs x (dnrank x) (genes_dn gs) method method_params ;;
    up0 <- getitem res0_up 0 ;;
    dn0 <- getitem res0_dn 0 ;;
    score <- py_add up0 dn0 ;;
    up1 <- getitem res0_up 1 ;;
    dn1 <- getitem res0_dn 1 ;;
    var <- py_add up1 dn1 ;;
    Ok (score_result barcode gs score var)
  else
    Raise UnboundLocalError.

End ScoreFuns.

(** * Specification-side definitions

    The notions the statements below are written with. *)

Definition in_index (x : DataFrame) (j : string) : bool :=
  existsb (String.eqb j) (index x).

(** [exprdat] has an entry for every gene of the table's index, as a
    column of the table does. *)
Definition indexed_like (x : DataFrame) (exprdat : Series) : Prop :=
  forall j, in_index x j = true -> exists v, series_get exprdat j = Some v.

Definition present (x : DataFrame) (genes : list string) : list string :=
  filter (in_index x) genes.

Definition absent (x : DataFrame) (genes : list string) : list string :=
  filter (fun j => negb (in_index x j)) genes.

(** Size of the intersection of the index set of the prefix of length
    [k] of [y] with the gene set. *)
Definition prefix_overlap (y : Series) (gs : list string) (k : nat) : nat :=
  length (intersection (set (series_index (firstn k y))) gs).

(** Sum of the overlaps of the prefixes of lengths [first, ..., first + n - 1]. *)
Definition overlaps_from (y : Series) (gs : list string) (first n : nat) : Z :=
  fold_right (fun k s => (Z.of_nat (prefix_overlap y gs k) + s)%Z) 0%Z (seq first n).

Definition cumulative_overlap (y : Series) (gs : list string) (n : nat) : Z :=
  overlaps_from y gs 1 n.

(** Number of prefixes the loop scores: the test [i > limit] follows the
    scoring of prefix [i + 1], so the prefixes of index [0 .. limit + 1]
    are scored, and at least one when there is a gene. *)
Definition prefixes_scored (n_genes : nat) (limit : Z) : nat :=
  Nat.min n_genes (Z.to_nat (Z.max 1 (limit + 2))).

(** The seven method names [method_selector] compares against. *)
Definition supported (method : string) : bool :=
  existsb (String.eqb method)
    [ "singscore"; "robust_std"; "summed_up"; "median_score"; "average_score";
      "mean_z"; "rank_biased_overlap" ]%string.

(** The value source and gene list of the single-mode paths. *)
Definition value_source (x : DataFrame) (m : string) (ranked : bool) : Series :=
  if ranked then (if (m =? "UP")%string then uprank x else dnrank x)
  else counts x.

Definition gene_list (gs : GeneSet) : list string :=
  if (mode gs =? "UP")%string then genes_up gs else genes_dn gs.

Definition mode_known (m : string) : bool :=
  ((m =? "UP") || (m =? "DN") || (m =? "BOTH"))%string.

Definition flag_known (ranked : flag) : bool :=
  flag_eq ranked false || flag_eq ranked true.

(** The sum, taken from 0.0 in sequence order, of the terms
    [|x - center| / scale] over the elements [x] of [xs]. *)
Definition sum_of_deviations (center scale : float64) (xs : list float64) : float64 :=
  fold_left (fun acc x => f_add acc (f_div (f_abs (f_sub x center)) scale)) xs (Fin 0).

(** A zero value: the divisor that makes the division degenerate. *)
Definition is_zero (v : float64) : bool :=
  match v with
  | Fin q => Qzero_b q
  | _ => false
  end.

Definition not_finite (v : float64) : Prop := is_finite v = false.

(** The sum of [min k m] over the prefix lengths [k = 1 .. n]: what
    the overlaps of a ranking of [m] genes add up to when each of its
    genes belongs to the gene set. *)
Definition capped_lengths (m n : nat) : Z :=
  fold_right (fun k s => (Z.of_nat (Nat.min k m) + s)%Z) 0%Z (seq 1 n).

(** A value that is not negative: [nan], [+inf], or a finite value
    that is at least 0. *)
Definition never_negative (v : float64) : bool :=
  match v with
  | Fin q => Qle_bool 0 q
  | NInf => false
  | PInf | NaN => true
  end.

(** The keys of the record [scorefun] builds. *)
Definition record_keys : list string :=
  [ "barcode"; "name"; "mode"; "score"; "var" ]%string.

(** The var of a record, from the second components of the selector
    results: a dispersion that is never negative, or the characters
    that come out of the string ["ERROR"]. *)
Definition var_of_selector (var : pyobj) : Prop :=
  var = PStr "R"%string \/ var = PStr "RR"%string \/
  exists v, var = PFloat v /\ never_negative v = true.

(** ** Example data *)

Definition rbo_example_gs : list string := ["A"; "B"; "C"]%string.

Definition rbo_example_su : Series :=
  [ ("A", of_Z 4); ("D", of_Z 3); ("B", of_Z 2); ("C", of_Z 1) ]%string.

(** Ranked values of two genes of the example gene set. *)
Definition rbo_example_within : Series :=
  [ ("C", of_Z 2); ("A", of_Z 1) ]%string.

(** Modelled from the spec: [gssnng.util.normalisation] is not among
    the sources and the spec gives its contract only, a value in [0, 1]
    that grows with the score.  The stand-in below, the score over the
    library length, meets the contract on rank columns (ranks between 1
    and the library length); it serves to evaluate the code on the
    examples. *)
Definition example_normalisation (norm_method : pyobj) (library_len : Z)
    (score_list : pyobj) (score : float64) (sig_len : pyobj) : result float64 :=
  Ok (f_div score (of_Z library_len)).

(** A table of four genes. *)
Definition example_table : DataFrame :=
  [ mk_row "A" (of_Z 3) (of_Z 4) (of_Z 1);
    mk_row "B" (of_Z 0) (of_Z 1) (of_Z 4);
    mk_row "C" (of_Z 7) (of_Z 3) (of_Z 2);
    mk_row "D" (of_Z 5) (of_Z 2) (of_Z 3) ]%string.

(** A gene set of mode [m]; the gene Z is not in the table. *)
Definition example_geneset (m : string) : GeneSet :=
  mk_geneset "sig" m ["A"; "Z"; "C"]%string ["B"; "D"]%string.

(** * Properties *)

(** ** Coercions of well-typed arguments *)

Lemma mapM_to_float (a : list float64) : mapM to_float (map PFloat a) = Ok a.
Proof.
  induction a as [|v a IH]; simpl; [reflexivity|].
  rewrite IH. reflexivity.
Qed.

Lemma array_like_floats (a : list float64) : array_like (floats a) = Ok a.
Proof. apply mapM_to_float. Qed.

Lemma reduction_values_floats (a : list float64) : reduction_values (floats a) = Ok a.
Proof. apply mapM_to_float. Qed.

Lemma genes_of_strs (g : list string) : genes_of (strs g) = Ok g.
Proof.
  unfold genes_of, strs.
  induction g as [|j g IH]; simpl; [reflexivity|].
  rewrite IH. reflexivity.
Qed.

(** ** Integers as float values *)

Lemma Qred_inject_Z (z : Z) : Qred (inject_Z z) = inject_Z z.
Proof.
  apply Qcanon.Qred_identity. simpl. apply Z.gcd_1_r.
Qed.

Lemma f_add_of_Z (a b : Z) : f_add (of_Z a) (of_Z b) = of_Z (a + b).
Proof.
  unfold of_Z, f_add, fin. f_equal.
  rewrite <- (Qred_inject_Z (a + b)).
  apply Qred_complete. rewrite inject_Z_plus. reflexivity.
Qed.

(** ** The extractor *)

Lemma in_index_cons (r : row) (x : DataFrame) (j : string) :
  in_index (r :: x) j = (String.eqb j (gene r) || in_index x j)%bool.
Proof. reflexivity. Qed.

Lemma column_indexed_like (f : row -> float64) (x : DataFrame) :
  indexed_like x (map (fun r => (gene r, f r)) x).
Proof.
  intros j. induction x as [|r x IH]; intros H.
  - discriminate H.
  - rewrite in_index_cons in H. simpl.
    destruct (String.eqb j (gene r)) eqn:E.
    + eexists. reflexivity.
    + simpl in H. apply IH, H.
Qed.

Lemma counts_indexed_like (x : DataFrame) : indexed_like x (counts x).
Proof. apply column_indexed_like. Qed.

Lemma uprank_indexed_like (x : DataFrame) : indexed_like x (uprank x).
Proof. apply column_indexed_like. Qed.

Lemma dnrank_indexed_like (x : DataFrame) : indexed_like x (dnrank x).
Proof. apply column_indexed_like. Qed.

Lemma present_absent_length (x : DataFrame) (genes : list string) :
  (length (present x genes) + length (absent x genes) = length genes)%nat.
Proof.
  induction genes as [|j genes IH]; simpl; [reflexivity|].
  destruct (in_index x j); simpl; lia.
Qed.

Lemma expr_format_loop_spec (x : DataFrame) (exprdat : Series) :
  indexed_like x exprdat ->
  forall genes su n,
  exists values,
    expr_format_loop x exprdat genes su n
      = Ok (su ++ values, (n - Z.of_nat (length (absent x genes)))%Z) /\
    map Some values = map (series_get exprdat) (present x genes).
Proof.
  intros Hcol genes. unfold present, absent.
  induction genes as [|j genes IH]; intros su n; simpl.
  - exists []. rewrite app_nil_r, Z.sub_0_r. split; reflexivity.
  - fold (in_index x j). destruct (in_index x j) eqn:E; simpl.
    + destruct (Hcol j E) as [v Hv]. rewrite Hv.
      destruct (IH (su ++ [v]) n) as [values [Hrun Hvals]].
      exists (v :: values). rewrite Hrun, <- app_assoc. simpl.
      split; [reflexivity|]. rewrite Hvals. reflexivity.
    + destruct (IH su (n - 1)%Z) as [values [Hrun Hvals]].
      exists values. rewrite Hrun. split; [|exact Hvals].
      do 2 f_equal. lia.
Qed.

Lemma expr_format_run (x : DataFrame) (exprdat : Series)
    (genes : list string) :
  indexed_like x exprdat ->
  exists values,
    expr_format x exprdat genes = Ok (values, Z.of_nat (length (present x genes))) /\
    map Some values = map (series_get exprdat) (present x genes).
Proof.
  intros Hcol.
  pose proof (present_absent_length x genes) as Hlen.
  destruct (expr_format_loop_spec x exprdat Hcol genes [] (Z.of_nat (length genes)))
    as [values [Hrun Hvals]].
  exists values. unfold expr_format. rewrite Hrun. simpl.
  split; [do 2 f_equal; lia | exact Hvals].
Qed.

(** C3.  For a gene list of length n of which k genes are present in
    the table's index, and a value column indexed like the table,
    [expr_format] returns (it does not raise on the absent genes) a
    value sequence of length k holding the column entries of the present
    genes in gene-list order, and a matched length equal to k, which is
    n less one per absent gene; on the empty gene list it returns the
    empty sequence and 0. *)
Theorem expr_format_present_genes :
  forall (x : DataFrame) (exprdat : Series) (genes : list string),
    indexed_like x exprdat ->
    (exists values,
        expr_format x exprdat genes = Ok (values, Z.of_nat (length (present x genes))) /\
        map Some values = map (series_get exprdat) (present x genes) /\
        length values = length (present x genes)) /\
    Z.of_nat (length (present x genes))
      = (Z.of_nat (length genes) - Z.of_nat (length (absent x genes)))%Z /\
    expr_format x exprdat [] = Ok ([], 0%Z).
Proof.
  intros x exprdat genes Hcol.
  pose proof (present_absent_length x genes) as Hlen.
  split; [|split; [lia | reflexivity]].
  destruct (expr_format_run x exprdat genes Hcol) as [values [Hrun Hvals]].
  exists values. split; [exact Hrun|]. split; [exact Hvals|].
  rewrite <- (length_map Some values), Hvals, length_map. reflexivity.
Qed.

(** ** Rank-biased overlap *)

Lemma rbo_loop_series (y : Series) (gs : list string) (limit : Z) :
  forall (rest : list string) (i : nat) (acc : Z),
    rbo_loop (PSeries y) gs (PInt limit) (enumerate_from i rest) (of_Z acc)
    = Ok (of_Z (acc + overlaps_from y gs (i + 1)
                        (Nat.min (length rest)
                           (Z.to_nat (Z.max 1 (limit + 2 - Z.of_nat i)))))).
Proof.
  induction rest as [|g rest IH]; intros i acc.
  - unfold overlaps_from. simpl. rewrite Z.add_0_r. reflexivity.
  - cbn [enumerate_from rbo_loop slice_to attr_index bind int_gt length].
    fold (prefix_overlap y gs (i + 1)).
    unfold of_nat. rewrite f_add_of_Z.
    destruct (limit <? Z.of_nat i)%Z eqn:E.
    + apply Z.ltb_lt in E.
      replace (Z.to_nat (Z.max 1 (limit + 2 - Z.of_nat i))) with 1%nat by lia.
      destruct rest; unfold overlaps_from; simpl; rewrite Z.add_0_r; reflexivity.
    + apply Z.ltb_ge in E.
      rewrite IH.
      replace (Z.to_nat (Z.max 1 (limit + 2 - Z.of_nat i)))
        with (S (Z.to_nat (Z.max 1 (limit + 2 - Z.of_nat (S i))))) by lia.
      cbn [Nat.min]. unfold overlaps_from. cbn [seq fold_right].
      replace (S (i + 1)) with (S i + 1)%nat by lia.
      rewrite Z.add_assoc. reflexivity.
Qed.

(** C4, as the code has it.  With a Series [y] as ranked values, a list
    of gene identifiers as gene set and an integer [limit],
    [rank_biased_overlap] scores the prefixes of lengths 1, 2, ... of
    [y], one per gene of the gene set, and stops after [limit + 2] of
    them (after one when [limit < 0]), or after all of them if the gene
    set is shorter; the score is the sum of the sizes of the
    intersections of the prefixes' index sets with the gene set.  For
    gene set {A,B,C}, ranked sequence [A,D,B,C] and limit = 1 the
    prefixes of lengths 1, 2 and 3 are scored, with intersection counts
    1, 1 and 2 and cumulative score 4. *)
Theorem rank_biased_overlap_prefixes :
  (forall (x : pyobj) (y : Series) (gs : list string) (limit : Z),
      rank_biased_overlap [x; PSeries y; strs gs; PInt limit]
      = Ok (pair (of_Z (cumulative_overlap y gs (prefixes_scored (length gs) limit)))
                 (mad (series_values y)))) /\
  (forall (n_genes : nat) (limit : Z),
      (0 <= limit)%Z ->
      prefixes_scored n_genes limit = Nat.min n_genes (Z.to_nat limit + 2)) /\
  prefixes_scored (length rbo_example_gs) 1 = 3%nat /\
  map (prefix_overlap rbo_example_su rbo_example_gs) [1; 2; 3]%nat = [1; 1; 2]%nat /\
  rank_biased_overlap [PNone; PSeries rbo_example_su; strs rbo_example_gs; PInt 1]
  = Ok (pair (of_Z 4) (mad (series_values rbo_example_su))).
Proof.
  assert (Hgen : forall (x : pyobj) (y : Series) (gs : list string) (limit : Z),
      rank_biased_overlap [x; PSeries y; strs gs; PInt limit]
      = Ok (pair (of_Z (cumulative_overlap y gs (prefixes_scored (length gs) limit)))
                 (mad (series_values y)))).
  { intros x y gs limit.
    unfold rank_biased_overlap, def3_1. rewrite genes_of_strs.
    cbn [bind]. unfold enumerate.
    change (Fin 0) with (of_Z 0).
    rewrite rbo_loop_series. cbn [bind array_like].
    rewrite Z.sub_0_r, Z.add_0_l. reflexivity. }
  split; [exact Hgen|].
  split; [intros n_genes limit H; unfold prefixes_scored; f_equal; lia|].
  split; [reflexivity|]. split; [reflexivity|].
  rewrite Hgen. reflexivity.
Qed.

(** Three genes and limit 1. *)
Lemma rank_biased_overlap_prefixes_witness :
  (0 <= 1)%Z /\ prefixes_scored 3 1 = Nat.min 3 (Z.to_nat 1 + 2).
Proof.
  split; [lia|].
  apply (proj1 (proj2 rank_biased_overlap_prefixes) 3%nat 1%Z). lia.
Defined.

(** C4 as stated fails: with gene set {A,B,C}, ranked sequence
    [A,D,B,C] and limit = 1, the first [limit + 1 = 2] prefixes have a
    cumulative overlap of 2, but the loop also scores the prefix of
    length 3 and returns 4. *)
Lemma rank_biased_overlap_limit_plus_one_fails :
  cumulative_overlap rbo_example_su rbo_example_gs (1 + 1) = 2%Z /\
  rank_biased_overlap [PNone; PSeries rbo_example_su; strs rbo_example_gs; PInt 1]
  = Ok (pair (of_Z 4) (mad (series_values rbo_example_su))) /\
  rank_biased_overlap [PNone; PSeries rbo_example_su; strs rbo_example_gs; PInt 1]
  <> Ok (pair (of_Z (cumulative_overlap rbo_example_su rbo_example_gs (1 + 1)))
              (mad (series_values rbo_example_su))).
Proof.
  split; [reflexivity|]. split; [vm_compute; reflexivity|].
  vm_compute. discriminate.
Qed.

(** ** The method selector and the mode combiner *)

Lemma value_source_indexed_like (x : DataFrame) (m : string) (ranked : bool) :
  indexed_like x (value_source x m ranked).
Proof.
  unfold value_source.
  destruct ranked; [destruct (m =? "UP")%string|]; apply column_indexed_like.
Qed.

Lemma expr_format_total (x : DataFrame) (exprdat : Series) (genes : list string) :
  indexed_like x exprdat ->
  exists su, expr_format x exprdat genes = Ok (su, Z.of_nat (length (present x genes))).
Proof.
  intros H.
  destruct (expr_format_run x exprdat genes H) as [su [Hsu _]].
  exists su. exact Hsu.
Qed.

Section ScoreFunsProperties.

Variable normalisation :
  pyobj -> Z -> pyobj -> float64 -> pyobj -> result float64.

Local Open Scope string_scope.

(** C2.  With mode UP or DN, [scorefun] returns a record, and the
    score and var read from that record are the pair returned by the
    one call of [method_selector] on the matching gene list, against
    the counts column when ranked is false and against uprank (UP) or
    dnrank (DN) when ranked is true. *)
Theorem scorefun_single_mode :
  forall (gs : GeneSet) (x : DataFrame) (method : string) (method_params : dict)
         (barcode : string) (ranked : bool) (score var : pyobj),
    mode gs = "UP" \/ mode gs = "DN" ->
    method_selector normalisation gs x (value_source x (mode gs) ranked) (gene_list gs)
      method method_params = Ok (PTuple [score; var]) ->
    exists d : dict,
      scorefun normalisation gs x method method_params barcode (FBool ranked) = Ok d /\
      dict_get d "score" = Ok score /\
      dict_get d "var" = Ok var.
Proof.
  intros gs x method method_params barcode ranked score var Hmode Hsel.
  exists (score_result barcode gs score var).
  split; [|split; reflexivity].
  revert Hsel. unfold scorefun, value_source, gene_list.
  destruct Hmode as [-> | ->]; destruct ranked; simpl;
    intros ->; reflexivity.
Qed.

(** C1.  With mode BOTH, under either ranked flag, [scorefun] returns
    a record; the score read from it is the sum of the scores of the
    two [method_selector] calls (up genes against the up value source,
    down genes against the down value source) and the var read from it
    is the sum of their two dispersions. *)
Theorem scorefun_both_sum :
  forall (gs : GeneSet) (x : DataFrame) (method : string) (method_params : dict)
         (barcode : string) (ranked : bool) (s_up v_up s_dn v_dn : float64),
    mode gs = "BOTH" ->
    method_selector normalisation gs x (if ranked then uprank x else counts x) (genes_up gs)
      method method_params = Ok (pair s_up v_up) ->
    method_selector normalisation gs x (if ranked then dnrank x else counts x) (genes_dn gs)
      method method_params = Ok (pair s_dn v_dn) ->
    exists d : dict,
      scorefun normalisation gs x method method_params barcode (FBool ranked) = Ok d /\
      dict_get d "score" = Ok (PFloat (f_add s_up s_dn)) /\
      dict_get d "var" = Ok (PFloat (f_add v_up v_dn)).
Proof.
  intros gs x method method_params barcode ranked s_up v_up s_dn v_dn Hmode Hup Hdn.
  exists (score_result barcode gs (PFloat (f_add s_up s_dn)) (PFloat (f_add v_up v_dn))).
  split; [|split; reflexivity].
  revert Hup Hdn. unfold scorefun. rewrite Hmode.
  destruct ranked; simpl; intros -> ->; reflexivity.
Qed.

(** The flags that compare equal to True or to False: the booleans
    and the numbers 0 and 1. *)
Lemma flag_known_iff (ranked : flag) :
  flag_known ranked = true <->
  (exists b, ranked = FBool b) \/ ranked = FInt 0 \/ ranked = FInt 1 \/
  (exists q, ranked = FFloat (Fin q) /\ (q == 0 \/ q == 1)).
Proof.
  unfold flag_known. split.
  - destruct ranked as [b | z | [q | | |] | | s]; simpl; intros H; try discriminate H.
    + left. exists b. reflexivity.
    + right. apply orb_true_iff in H.
      destruct H as [H | H]; apply Z.eqb_eq in H; subst; auto.
    + right. right. right. exists q. split; [reflexivity|].
      apply orb_true_iff in H.
      destruct H as [H | H]; apply Qeq_bool_iff in H; auto.
  - intros [[b ->] | [-> | [-> | [q [-> Hq]]]]]; [destruct b|..]; try reflexivity.
    simpl. apply orb_true_iff.
    destruct Hq as [Hq | Hq]; [left | right]; apply Qeq_bool_iff; exact Hq.
Qed.

(** C10, as the code has it.  [scorefun] assigns its result only when
    the mode is one of UP, DN, BOTH and the ranked flag compares equal
    to True or to False, which the booleans do and so do the numbers
    1 and 0; for every other (mode, ranked) combination no branch
    runs and the call fails with the unbound-result error. *)
Theorem scorefun_unbound_result :
  forall (gs : GeneSet) (x : DataFrame) (method : string) (method_params : dict)
         (barcode : string) (ranked : flag),
    mode_known (mode gs) && flag_known ranked = false ->
    scorefun normalisation gs x method method_params barcode ranked = Raise UnboundLocalError.
Proof.
  intros gs x method method_params barcode ranked H.
  unfold scorefun. unfold mode_known, flag_known in H.
  destruct (mode gs =? "UP"), (mode gs =? "DN"), (mode gs =? "BOTH"),
    (flag_eq ranked false), (flag_eq ranked true);
    simpl in H; try discriminate H; reflexivity.
Qed.

(** An unknown method name makes [method_selector] return the string
    ["ERROR"], once the extraction has run. *)
Lemma method_selector_unknown (gs : GeneSet) (x : DataFrame) (exprdat : Series)
    (genes : list string) (method : string) (method_params : dict) :
  supported method = false ->
  indexed_like x exprdat ->
  method_selector normalisation gs x exprdat genes method method_params = Ok (PStr "ERROR").
Proof.
  intros Hm Hcol. unfold method_selector.
  destruct (expr_format_total x exprdat genes Hcol) as [su ->]. cbn [bind].
  unfold supported in Hm. cbn [existsb] in Hm.
  repeat (apply orb_false_iff in Hm; destruct Hm as [?E Hm]).
  rewrite E, E0, E1, E2, E3, E4, E5. reflexivity.
Qed.

(** [scorefun] indexes the string as it indexes a pair: the record
    holds its first two characters, and in mode BOTH their doubles. *)
Lemma scorefun_unknown_method_record (gs : GeneSet) (x : DataFrame) (method : string)
    (method_params : dict) (barcode : string) (ranked : bool) :
  supported method = false ->
  (mode gs = "UP" \/ mode gs = "DN" ->
   scorefun normalisation gs x method method_params barcode (FBool ranked)
   = Ok (score_result barcode gs (PStr "E") (PStr "R"))) /\
  (mode gs = "BOTH" ->
   scorefun normalisation gs x method method_params barcode (FBool ranked)
   = Ok (score_result barcode gs (PStr "EE") (PStr "RR"))).
Proof.
  intros Hm.
  assert (Hsel : forall col genes,
    method_selector normalisation gs x (map (fun r => (gene r, col r)) x) genes method method_params
    = Ok (PStr "ERROR")).
  { intros col genes. apply method_selector_unknown; [exact Hm|].
    apply column_indexed_like. }
  unfold scorefun, counts, uprank, dnrank.
  split; [intros [-> | ->] | intros ->]; destruct ranked; simpl;
    rewrite ?Hsel; reflexivity.
Qed.

(** For a method name that is not supported [scorefun] returns a
    record all the same: the score and var read from it are the
    characters E and R of the selector's string in modes UP and DN, and
    EE and RR in mode BOTH. *)
Theorem scorefun_unknown_method :
  forall (gs : GeneSet) (x : DataFrame) (method : string) (method_params : dict)
         (barcode : string) (ranked : bool),
    supported method = false ->
    (mode gs = "UP" \/ mode gs = "DN" ->
     exists d : dict,
       scorefun normalisation gs x method method_params barcode (FBool ranked) = Ok d /\
       dict_get d "score" = Ok (PStr "E") /\
       dict_get d "var" = Ok (PStr "R")) /\
    (mode gs = "BOTH" ->
     exists d : dict,
       scorefun normalisation gs x method method_params barcode (FBool ranked) = Ok d /\
       dict_get d "score" = Ok (PStr "EE") /\
       dict_get d "var" = Ok (PStr "RR")).
Proof.
  intros gs x method method_params barcode ranked Hm.
  destruct (scorefun_unknown_method_record gs x method method_params barcode ranked Hm)
    as [Hsingle Hboth].
  split; intros Hmode; eexists;
    (split; [first [apply Hsingle; exact Hmode | apply Hboth; exact Hmode]
            | split; reflexivity]).
Qed.

(** The calls of [median_score], [average_score] and
    [rank_biased_overlap] that [method_selector] makes pass more
    arguments than the definitions take. *)
Lemma method_selector_arity (gs : GeneSet) (x : DataFrame) (exprdat : Series)
    (genes : list string) (method_params : dict) (rbo_depth : pyobj) :
  indexed_like x exprdat ->
  method_selector normalisation gs x exprdat genes "median_score" method_params = Raise TypeError /\
  method_selector normalisation gs x exprdat genes "average_score" method_params = Raise TypeError /\
  (dict_get method_params "rbo_depth" = Ok rbo_depth ->
   method_selector normalisation gs x exprdat genes "rank_biased_overlap" method_params
   = Raise TypeError).
Proof.
  intros Hcol. unfold method_selector.
  destruct (expr_format_total x exprdat genes Hcol) as [su ->]. cbn [bind].
  repeat split. intros H. simpl. rewrite H. reflexivity.
Qed.

(** The methods whose calls fit their definitions. *)
Lemma method_selector_dispatch (gs : GeneSet) (x : DataFrame) (exprdat : Series)
    (genes : list string) (method_params : dict) (su : list float64) (sig_len : Z) :
  expr_format x exprdat genes = Ok (su, sig_len) ->
  method_selector normalisation gs x exprdat genes "summed_up" method_params
    = Ok (pair (np.sum su) (mad su)) /\
  method_selector normalisation gs x exprdat genes "robust_std" method_params
    = robust_std [PSeries exprdat; floats su] /\
  method_selector normalisation gs x exprdat genes "mean_z" method_params
    = mean_z [PSeries exprdat; floats su] /\
  (forall norm_method,
      dict_get method_params "normalization" = Ok norm_method ->
      method_selector normalisation gs x exprdat genes "singscore" method_params
      = singscore normalisation [PSeries exprdat; floats su; PInt sig_len; norm_method]).
Proof.
  intros H. unfold method_selector. rewrite H. cbn [bind].
  repeat split.
  - simpl. rewrite mapM_to_float. reflexivity.
  - intros norm_method Hn. simpl. rewrite Hn. reflexivity.
Qed.

(** C7.  When the normalisation collaborator returns a value in
    [0, 1], [singscore] returns that value minus 0.5 as score, which
    therefore lies in [-0.5, 0.5], and the MAD of the extracted values
    as dispersion. *)
Theorem singscore_centered :
  forall (x su sig_len norm_method : pyobj) (r a : list float64)
         (labels : list string) (n : Q),
    reduction_values su = Ok r ->
    array_like su = Ok a ->
    attr_index x = Ok labels ->
    normalisation norm_method (Z.of_nat (length labels)) su (np.mean r) sig_len
      = Ok (Fin n) ->
    (0 <= n <= 1)%Q ->
    exists s : Q,
      singscore normalisation [x; su; sig_len; norm_method] = Ok (pair (Fin s) (mad a)) /\
      (s == n - (1 # 2))%Q /\
      (- (1 # 2) <= s <= 1 # 2)%Q.
Proof.
  intros x su sig_len norm_method r a labels n Hr Ha Hx Hn Hrange.
  exists (Qred (n - (1 # 2))).
  unfold singscore, def4.
  rewrite Hr. cbn [bind]. rewrite Hx. cbn [bind]. rewrite Hn. cbn [bind].
  rewrite Ha. cbn [bind].
  split; [reflexivity|].
  pose proof (Qred_correct (n - (1 # 2))) as Hred.
  split; [exact Hred|].
  rewrite Hred. split; lra.
Qed.

End ScoreFunsProperties.

(** ** [mean_z] and [robust_std] *)

Lemma fold_left_add_map (g : float64 -> float64) (xs : list float64) :
  forall u, fold_left f_add (map g xs) u = fold_left (fun acc x => f_add acc (g x)) xs u.
Proof.
  induction xs as [|x xs IH]; intros u; simpl; [reflexivity | apply IH].
Qed.

(** C8.  [mean_z] returns as score the mean, over the elements x of
    [su], of |x - mean(exprdat)| / std(exprdat), and std(exprdat) as
    dispersion; [e] stands for the values the reductions of [exprdat]
    run over and [xs] for the values of [su].  The first part gives the
    score as the mean of the list of terms.  The second writes the mean
    out for a non-empty [su]: the terms are added up from 0.0 in the
    order of [su] and the sum is divided by the number of elements,
    which is not zero. *)
Theorem mean_z_score :
  (forall (exprdat su : pyobj) (e xs : list float64),
      reduction_values exprdat = Ok e ->
      array_like su = Ok xs ->
      mean_z [exprdat; su]
      = Ok (pair (np.mean (map (fun x => f_div (f_abs (f_sub x (np.mean e))) (np.std e)) xs))
                 (np.std e))) /\
  (forall (exprdat su : pyobj) (e xs : list float64),
      reduction_values exprdat = Ok e ->
      array_like su = Ok xs ->
      xs <> [] ->
      mean_z [exprdat; su]
      = Ok (pair (f_div (sum_of_deviations (np.mean e) (np.std e) xs)
                        (of_nat (length xs)))
                 (np.std e)) /\
      is_zero (of_nat (length xs)) = false).
Proof.
  assert (Hgen : forall (exprdat su : pyobj) (e xs : list float64),
      reduction_values exprdat = Ok e ->
      array_like su = Ok xs ->
      mean_z [exprdat; su]
      = Ok (pair (np.mean (map (fun x => f_div (f_abs (f_sub x (np.mean e))) (np.std e)) xs))
                 (np.std e))).
  { intros exprdat su e xs He Hxs. unfold mean_z, def2.
    rewrite He. cbn [bind]. rewrite Hxs. reflexivity. }
  split; [exact Hgen|].
  intros exprdat su e xs He Hxs Hne.
  rewrite (Hgen _ _ _ _ He Hxs).
  unfold np.mean at 1, np.sum, sum_of_deviations.
  rewrite fold_left_add_map, length_map.
  split; [reflexivity|].
  destruct xs as [|x xs]; [contradiction | reflexivity].
Qed.

Lemma div_by_zero_not_finite (v d : float64) :
  is_zero d = true -> is_finite (f_div v d) = false.
Proof.
  destruct d as [q | | |]; simpl; try discriminate. intros Hq.
  destruct v as [a | | |]; simpl; rewrite ?Hq; try reflexivity.
  - destruct (Qzero_b a); [reflexivity|]. destruct (Qneg_b a); reflexivity.
  - unfold Qzero_b in Hq. apply Z.eqb_eq in Hq. unfold Qneg_b. rewrite Hq. reflexivity.
  - unfold Qzero_b in Hq. apply Z.eqb_eq in Hq. unfold Qneg_b. rewrite Hq. reflexivity.
Qed.

Lemma add_not_finite_r (u v : float64) : not_finite v -> not_finite (f_add u v).
Proof. destruct u, v; simpl; intros H; try discriminate H; reflexivity. Qed.

Lemma add_not_finite_l (u v : float64) : not_finite u -> not_finite (f_add u v).
Proof. destruct u, v; simpl; intros H; try discriminate H; reflexivity. Qed.

Lemma fold_add_not_finite (l : list float64) :
  Forall not_finite l ->
  forall u, not_finite u -> not_finite (fold_left f_add l u).
Proof.
  induction 1 as [|v l Hv _ IH]; intros u Hu; simpl; [exact Hu|].
  apply IH, add_not_finite_r, Hv.
Qed.

Lemma div_of_nat_not_finite (u : float64) (n : nat) :
  not_finite u -> not_finite (f_div u (of_nat n)).
Proof.
  destruct u; simpl; intros H; try discriminate H; try reflexivity.
  - destruct (Qneg_b _); reflexivity.
  - destruct (Qneg_b _); reflexivity.
Qed.

Lemma mean_not_finite (l : list float64) :
  Forall not_finite l -> not_finite (np.mean l).
Proof.
  intros H. unfold np.mean, np.sum.
  destruct H as [|v l Hv Hl]; [reflexivity|].
  apply div_of_nat_not_finite. cbn [fold_left].
  apply fold_add_not_finite; [exact Hl|].
  apply add_not_finite_r, Hv.
Qed.

Lemma insert_not_finite (v : float64) (s : list float64) :
  not_finite v -> Forall not_finite s -> Forall not_finite (np.insert v s).
Proof.
  intros Hv. induction 1 as [|w s Hw Hs IH]; simpl.
  - constructor; [exact Hv | constructor].
  - destruct (f_leb v w); constructor; auto.
Qed.

Lemma sort_not_finite (l : list float64) :
  Forall not_finite l -> Forall not_finite (np.sort l).
Proof.
  induction 1 as [|v l Hv _ IH]; simpl; [constructor|].
  apply insert_not_finite; assumption.
Qed.

Lemma nth_not_finite (s : list float64) (k : nat) :
  Forall not_finite s -> not_finite (nth k s NaN).
Proof.
  intros H. revert k. induction H as [|v s Hv _ IH]; intros [|k]; simpl; auto;
    reflexivity.
Qed.

Lemma median_not_finite (l : list float64) :
  Forall not_finite l -> not_finite (np.median l).
Proof.
  intros H. unfold np.median.
  destruct (existsb is_nan l); [reflexivity|].
  destruct (length l) as [|n] eqn:E; [reflexivity|].
  pose proof (sort_not_finite l H) as Hs.
  destruct (Nat.even (S n)).
  - apply mean_not_finite. repeat constructor; apply nth_not_finite, Hs.
  - apply nth_not_finite, Hs.
Qed.

Lemma map_div_by_zero (f : float64 -> float64) (d : float64) (xs : list float64) :
  is_zero d = true -> Forall not_finite (map (fun x => f_div (f x) d) xs).
Proof.
  intros Hd. induction xs; simpl; constructor; [|assumption].
  apply div_by_zero_not_finite, Hd.
Qed.

(** C9, as the code has it.  [mean_z] and [robust_std] divide by the
    population dispersion without testing it: on numeric sequences they
    always return a (score, dispersion) pair, and when the dispersion
    (std(exprdat), respectively MAD(exprdat)) is zero that pair holds
    the zero dispersion and a score that is not a finite number.  [r]
    is the sequence the reductions of [exprdat] run over, [e] and [xs]
    are the values of [exprdat] and [su]. *)
Theorem degenerate_dispersion_unguarded :
  forall (exprdat su : pyobj) (r e xs : list float64),
    reduction_values exprdat = Ok r ->
    array_like exprdat = Ok e ->
    array_like su = Ok xs ->
    (exists score,
        mean_z [exprdat; su] = Ok (pair score (np.std r)) /\
        (is_zero (np.std r) = true -> is_finite score = false)) /\
    (exists score,
        robust_std [exprdat; su] = Ok (pair score (mad e)) /\
        (is_zero (mad e) = true -> is_finite score = false)).
Proof.
  intros exprdat su r e xs Hr He Hxs. split.
  - eexists. split.
    + unfold mean_z, def2. rewrite Hr. cbn [bind]. rewrite Hxs. reflexivity.
    + intros Hz. apply mean_not_finite.
      apply (map_div_by_zero (fun x => np.abs (f_sub x (np.mean r)))), Hz.
  - eexists. split.
    + unfold robust_std, def2. rewrite He. cbn [bind]. rewrite Hxs. reflexivity.
    + intros Hz. apply median_not_finite.
      apply (map_div_by_zero (fun x => np.abs (f_sub x (np.median e)))), Hz.
Qed.

(** ** Evaluations on the example data *)

(** The extractor on the example table: the gene Z is absent, two of
    three genes are matched. *)
Lemma expr_format_present_genes_witness :
  indexed_like example_table (counts example_table) /\
  exists values,
    expr_format example_table (counts example_table) ["A"; "Z"; "C"]%string
    = Ok (values, 2%Z) /\
    map Some values = [Some (of_Z 3); Some (of_Z 7)] /\
    length values = 2%nat.
Proof.
  split; [apply counts_indexed_like|].
  exact (proj1 (expr_format_present_genes example_table (counts example_table)
                  ["A"; "Z"; "C"]%string (counts_indexed_like example_table))).
Defined.

(** Mode UP on raw counts, with the summed_up method. *)
Lemma scorefun_single_mode_witness :
  (mode (example_geneset "UP") = "UP"%string \/
   mode (example_geneset "UP") = "DN"%string) /\
  exists d : dict,
    scorefun example_normalisation (example_geneset "UP") example_table
      "summed_up" [] "cell" (FBool false) = Ok d /\
    dict_get d "score" = Ok (PFloat (of_Z 10)) /\
    dict_get d "var" = Ok (PFloat (mad [of_Z 3; of_Z 7])).
Proof.
  split; [left; reflexivity|].
  apply scorefun_single_mode; [left; reflexivity | vm_compute; reflexivity].
Defined.

(** Mode BOTH on ranks, with the summed_up method. *)
Lemma scorefun_both_sum_witness :
  mode (example_geneset "BOTH") = "BOTH"%string /\
  exists d : dict,
    scorefun example_normalisation (example_geneset "BOTH") example_table
      "summed_up" [] "cell" (FBool true) = Ok d /\
    dict_get d "score" = Ok (PFloat (f_add (of_Z 7) (of_Z 7))) /\
    dict_get d "var"
    = Ok (PFloat (f_add (mad [of_Z 4; of_Z 3]) (mad [of_Z 4; of_Z 3]))).
Proof.
  split; [reflexivity|].
  apply scorefun_both_sum; [reflexivity | vm_compute; reflexivity | vm_compute; reflexivity].
Defined.

(** A mode spelled in lower case matches no branch. *)
Lemma scorefun_unbound_result_witness :
  mode_known (mode (example_geneset "both")) && flag_known (FBool true) = false /\
  scorefun example_normalisation (example_geneset "both") example_table
    "summed_up" [] "cell" (FBool true)
  = Raise UnboundLocalError.
Proof.
  split; [reflexivity|].
  apply scorefun_unbound_result. reflexivity.
Defined.

(** C10 as stated fails: with mode UP and the integer 1 as ranked flag,
    which is not a boolean, the branch for ranked data runs and
    [scorefun] returns a record. *)
Lemma scorefun_integer_flag_returns :
  (forall b, FInt 1 <> FBool b) /\
  scorefun example_normalisation (example_geneset "UP") example_table
    "summed_up" [] "cell" (FInt 1)
  = Ok (score_result "cell" (example_geneset "UP")
          (PFloat (of_Z 7)) (PFloat (mad [of_Z 4; of_Z 3]))) /\
  scorefun example_normalisation (example_geneset "UP") example_table
    "summed_up" [] "cell" (FInt 1)
  <> Raise UnboundLocalError.
Proof.
  split; [intros b; discriminate|].
  split; [vm_compute; reflexivity | vm_compute; discriminate].
Qed.

(** The up genes A and C have mean rank 7/2 in a library of four. *)
Lemma singscore_centered_witness :
  (0 <= 7 # 8 <= 1)%Q /\
  exists s : Q,
    singscore example_normalisation
      [PSeries (uprank example_table); floats [of_Z 4; of_Z 3]; PInt 2; PStr "standard"]
    = Ok (pair (Fin s) (mad [of_Z 4; of_Z 3])) /\
    (s == (7 # 8) - (1 # 2))%Q /\
    (- (1 # 2) <= s <= 1 # 2)%Q.
Proof.
  assert (H : (0 <= 7 # 8 <= 1)%Q) by (split; discriminate).
  split; [exact H|].
  apply (singscore_centered example_normalisation
           (PSeries (uprank example_table)) (floats [of_Z 4; of_Z 3]) (PInt 2)
           (PStr "standard") [of_Z 4; of_Z 3] [of_Z 4; of_Z 3]
           (index example_table) (7 # 8));
    [reflexivity | reflexivity | reflexivity | vm_compute; reflexivity | exact H].
Defined.

(** The column [1, 3] has mean 2 and standard deviation 1; the values
    1, 3, 5, 7 lie 1, 1, 3, 5 away from the mean, 5/2 on average. *)
Lemma mean_z_score_witness :
  (reduction_values (floats (map of_Z [1; 3]%Z)) = Ok (map of_Z [1; 3]%Z) /\
   array_like (floats (map of_Z [1; 3; 5; 7]%Z)) = Ok (map of_Z [1; 3; 5; 7]%Z)) /\
  mean_z [floats (map of_Z [1; 3]%Z); floats (map of_Z [1; 3; 5; 7]%Z)]
  = Ok (pair (Fin (5 # 2)) (Fin 1)).
Proof.
  split; [split; reflexivity|].
  etransitivity;
    [ exact (proj1 (proj2 mean_z_score
                      (floats (map of_Z [1; 3]%Z)) (floats (map of_Z [1; 3; 5; 7]%Z))
                      (map of_Z [1; 3]%Z) (map of_Z [1; 3; 5; 7]%Z)
                      eq_refl eq_refl ltac:(discriminate)))
    | vm_compute; reflexivity ].
Defined.

(** A constant column. *)
Lemma degenerate_dispersion_unguarded_witness :
  (reduction_values (floats [of_Z 5; of_Z 5; of_Z 5]) = Ok [of_Z 5; of_Z 5; of_Z 5] /\
   array_like (floats [of_Z 5; of_Z 5; of_Z 5]) = Ok [of_Z 5; of_Z 5; of_Z 5] /\
   array_like (floats [of_Z 5; of_Z 7]) = Ok [of_Z 5; of_Z 7]) /\
  exists score,
    mean_z [floats [of_Z 5; of_Z 5; of_Z 5]; floats [of_Z 5; of_Z 7]]
    = Ok (pair score (np.std [of_Z 5; of_Z 5; of_Z 5])) /\
    (is_zero (np.std [of_Z 5; of_Z 5; of_Z 5]) = true -> is_finite score = false).
Proof.
  split; [repeat split; reflexivity|].
  exact (proj1 (degenerate_dispersion_unguarded
                  (floats [of_Z 5; of_Z 5; of_Z 5]) (floats [of_Z 5; of_Z 7])
                  [of_Z 5; of_Z 5; of_Z 5] [of_Z 5; of_Z 5; of_Z 5] [of_Z 5; of_Z 7]
                  eq_refl eq_refl eq_refl)).
Defined.

(** C9 as stated fails: on a constant column the standard deviation and
    the MAD are zero, and both functions return an ordinary pair, with
    [nan] or [inf] as score, instead of reporting the degenerate
    input. *)
Lemma degenerate_dispersion_not_reported :
  np.std [of_Z 5; of_Z 5; of_Z 5] = Fin 0 /\
  mad [of_Z 5; of_Z 5; of_Z 5] = Fin 0 /\
  mean_z [floats [of_Z 5; of_Z 5; of_Z 5]; floats [of_Z 5]] = Ok (pair NaN (Fin 0)) /\
  robust_std [floats [of_Z 5; of_Z 5; of_Z 5]; floats [of_Z 7]] = Ok (pair PInf (Fin 0)) /\
  (forall e, mean_z [floats [of_Z 5; of_Z 5; of_Z 5]; floats [of_Z 5]] <> Raise e) /\
  (forall e, robust_std [floats [of_Z 5; of_Z 5; of_Z 5]; floats [of_Z 7]] <> Raise e).
Proof.
  repeat split; try (vm_compute; reflexivity); intros e; vm_compute; discriminate.
Qed.

(** C5 fails in the code.  Called with the extracted values alone,
    [median_score] and [average_score] return (median, MAD) and
    (mean, std); but [method_selector] calls them with two arguments,
    and [rank_biased_overlap] with five, and each of these calls raises
    [TypeError]. *)
Theorem method_selector_call_arity :
  median_score [floats (map of_Z [1; 2; 3; 100]%Z)]
  = Ok (pair (Fin (5 # 2)) (mad (map of_Z [1; 2; 3; 100]%Z))) /\
  average_score [floats (map of_Z [2; 4; 6]%Z)]
  = Ok (pair (Fin 4) (np.std (map of_Z [2; 4; 6]%Z))) /\
  method_selector example_normalisation (example_geneset "UP") example_table
    (counts example_table) ["A"; "Z"; "C"]%string "median_score" []
  = Raise TypeError /\
  method_selector example_normalisation (example_geneset "UP") example_table
    (counts example_table) ["A"; "Z"; "C"]%string "average_score" []
  = Raise TypeError /\
  method_selector example_normalisation (example_geneset "UP") example_table
    (uprank example_table) ["A"; "Z"; "C"]%string "rank_biased_overlap"
    [("rbo_depth"%string, PInt 100)]
  = Raise TypeError.
Proof.
  repeat split; vm_compute; reflexivity.
Qed.

(** C6 fails in the code.  For a method name that is not supported,
    [method_selector] returns the string ["ERROR"]; [scorefun] does not
    hand it on but indexes it, and returns a record whose score and var
    are the characters E and R (EE and RR in mode BOTH). *)
Theorem unknown_method_not_propagated :
  supported "no_such_method" = false /\
  method_selector example_normalisation (example_geneset "UP") example_table
    (counts example_table) ["A"; "Z"; "C"]%string "no_such_method" []
  = Ok (PStr "ERROR") /\
  scorefun example_normalisation (example_geneset "UP") example_table
    "no_such_method" [] "cell" (FBool false)
  = Ok (score_result "cell" (example_geneset "UP") (PStr "E") (PStr "R")) /\
  scorefun example_normalisation (example_geneset "BOTH") example_table
    "no_such_method" [] "cell" (FBool false)
  = Ok (score_result "cell" (example_geneset "BOTH") (PStr "EE") (PStr "RR")).
Proof.
  repeat split; vm_compute; reflexivity.
Qed.

(** * Further properties of the extractor *)

Lemma expr_format_loop_raises (x : DataFrame) (exprdat : Series) :
  forall (genes : list string) (su : list float64) (n : Z) (e : exn),
    expr_format_loop x exprdat genes su n = Raise e <->
    e = KeyError /\
    exists j, In j genes /\ in_index x j = true /\ series_get exprdat j = None.
Proof.
  induction genes as [|j genes IH]; intros su n e; simpl.
  - split; [discriminate|]. intros [_ [j [[] _]]].
  - fold (in_index x j). destruct (in_index x j) eqn:E.
    + destruct (series_get exprdat j) as [v|] eqn:G.
      * rewrite IH. split; intros [He [k [Hin Hk]]]; (split; [exact He|]).
        -- exists k. split; [right; exact Hin | exact Hk].
        -- destruct Hin as [<- | Hin].
           ++ destruct Hk as [_ Hk]. rewrite G in Hk. discriminate Hk.
           ++ exists k. split; assumption.
      * split.
        -- intros H. injection H as <-. split; [reflexivity|].
           exists j. repeat split; auto.
        -- intros [-> _]. reflexivity.
    + rewrite IH. split; intros [He [k [Hin Hk]]]; (split; [exact He|]).
      * exists k. split; [right; exact Hin | exact Hk].
      * destruct Hin as [<- | Hin].
        -- destruct Hk as [Hk _]. rewrite E in Hk. discriminate Hk.
        -- exists k. split; assumption.
Qed.

(** [expr_format] fails in one way only: with [KeyError], and exactly
    when the gene list holds a gene that is in the table's index but has
    no entry in the value column. *)
Theorem expr_format_key_error :
  forall (x : DataFrame) (exprdat : Series) (genes : list string) (e : exn),
    expr_format x exprdat genes = Raise e <->
    e = KeyError /\
    exists j, In j genes /\ in_index x j = true /\ series_get exprdat j = None.
Proof.
  intros x exprdat genes e. unfold expr_format. apply expr_format_loop_raises.
Qed.

Lemma expr_format_loop_returns (x : DataFrame) (exprdat : Series) :
  forall (genes : list string) (su0 su : list float64) (n k : Z),
    expr_format_loop x exprdat genes su0 n = Ok (su, k) ->
    exists values,
      su = su0 ++ values /\
      map Some values = map (series_get exprdat) (present x genes) /\
      k = (n - Z.of_nat (length (absent x genes)))%Z.
Proof.
  unfold present, absent.
  induction genes as [|j genes IH]; intros su0 su n k; simpl.
  - intros H. injection H as <- <-. exists [].
    rewrite app_nil_r, Z.sub_0_r. repeat split.
  - fold (in_index x j). destruct (in_index x j) eqn:E; simpl.
    + destruct (series_get exprdat j) as [v|] eqn:G; [|discriminate].
      intros H. destruct (IH _ _ _ _ H) as [values [-> [Hv ->]]].
      exists (v :: values). rewrite <- app_assoc. simpl.
      rewrite Hv. repeat split.
    + intros H. destruct (IH _ _ _ _ H) as [values [-> [Hv ->]]].
      exists values. repeat split; [exact Hv | lia].
Qed.

(** Whatever the value column, when [expr_format] returns, the matched
    length it returns is the length of the value sequence, it lies
    between 0 and the length of the gene list, and the values are the
    column entries of the genes present in the table, in gene-list
    order. *)
Theorem expr_format_matched_length :
  forall (x : DataFrame) (exprdat : Series) (genes : list string)
         (su : list float64) (sig_len : Z),
    expr_format x exprdat genes = Ok (su, sig_len) ->
    sig_len = Z.of_nat (length su) /\
    (0 <= sig_len <= Z.of_nat (length genes))%Z /\
    map Some su = map (series_get exprdat) (present x genes).
Proof.
  intros x exprdat genes su sig_len H. unfold expr_format in H.
  destruct (expr_format_loop_returns x exprdat genes [] su _ _ H)
    as [values [-> [Hv ->]]].
  simpl. pose proof (present_absent_length x genes) as Hlen.
  assert (Hl : length values = length (present x genes)).
  { rewrite <- (length_map Some values), Hv, length_map. reflexivity. }
  repeat split; try lia. exact Hv.
Qed.

(** With the gene Z absent from the table, two of three genes match. *)
Lemma expr_format_matched_length_witness :
  expr_format example_table (uprank example_table) ["A"; "Z"; "C"]%string
  = Ok ([of_Z 4; of_Z 3], 2%Z) /\
  2%Z = Z.of_nat (length [of_Z 4; of_Z 3]).
Proof.
  split; [reflexivity|].
  exact (proj1 (expr_format_matched_length example_table (uprank example_table)
                  ["A"; "Z"; "C"]%string [of_Z 4; of_Z 3] 2%Z eq_refl)).
Defined.

Lemma expr_format_loop_shift (x : DataFrame) (exprdat : Series) :
  forall (genes : list string) (su : list float64) (n : Z),
    expr_format_loop x exprdat genes su n
    = r <- expr_format_loop x exprdat genes [] 0%Z ;;
      Ok (su ++ fst r, (n + snd r)%Z).
Proof.
  induction genes as [|j genes IH]; intros su n; simpl.
  - rewrite app_nil_r, Z.add_0_r. reflexivity.
  - destruct (existsb (String.eqb j) (index x)).
    + destruct (series_get exprdat j) as [v|]; [|reflexivity].
      rewrite (IH (su ++ [v])), (IH [v]).
      destruct (expr_format_loop x exprdat genes [] 0%Z) as [[vs k]|e]; simpl;
        [|reflexivity].
      rewrite <- app_assoc. reflexivity.
    + rewrite (IH su), (IH [] (-1)%Z).
      destruct (expr_format_loop x exprdat genes [] 0%Z) as [[vs k]|e];
        cbn [bind fst snd app]; [|reflexivity].
      do 2 f_equal. lia.
Qed.

Lemma expr_format_loop_app (x : DataFrame) (exprdat : Series) :
  forall (genes1 genes2 : list string) (su : list float64) (n : Z),
    expr_format_loop x exprdat (genes1 ++ genes2) su n
    = r <- expr_format_loop x exprdat genes1 su n ;;
      expr_format_loop x exprdat genes2 (fst r) (snd r).
Proof.
  induction genes1 as [|j genes1 IH]; intros genes2 su n; simpl.
  - reflexivity.
  - destruct (existsb (String.eqb j) (index x)).
    + destruct (series_get exprdat j) as [v|]; [apply IH | reflexivity].
    + apply IH.
Qed.

(** Extraction distributes over the concatenation of gene lists: the
    values of the first list are followed by those of the second, the
    matched lengths add up, and a failure on the first list comes
    first. *)
Theorem expr_format_app :
  forall (x : DataFrame) (exprdat : Series) (genes1 genes2 : list string),
    expr_format x exprdat (genes1 ++ genes2)
    = r1 <- expr_format x exprdat genes1 ;;
      r2 <- expr_format x exprdat genes2 ;;
      Ok (fst r1 ++ fst r2, (snd r1 + snd r2)%Z).
Proof.
  intros x exprdat genes1 genes2. unfold expr_format.
  rewrite expr_format_loop_app.
  rewrite (expr_format_loop_shift x exprdat genes1 [] (Z.of_nat (length (genes1 ++ genes2)))).
  rewrite (expr_format_loop_shift x exprdat genes1 [] (Z.of_nat (length genes1))).
  destruct (expr_format_loop x exprdat genes1 [] 0%Z) as [[vs1 k1]|e]; simpl;
    [|reflexivity].
  rewrite (expr_format_loop_shift x exprdat genes2 vs1).
  rewrite (expr_format_loop_shift x exprdat genes2 [] (Z.of_nat (length genes2))).
  destruct (expr_format_loop x exprdat genes2 [] 0%Z) as [[vs2 k2]|e]; simpl;
    [|reflexivity].
  rewrite length_app. do 2 f_equal. lia.
Qed.

(** * Further properties of the rank-biased overlap *)

Lemma rank_biased_overlap_series (x : pyobj) (y : Series) (gs : list string)
    (limit : Z) :
  rank_biased_overlap [x; PSeries y; strs gs; PInt limit]
  = Ok (pair (of_Z (cumulative_overlap y gs (prefixes_scored (length gs) limit)))
             (mad (series_values y))).
Proof.
  unfold rank_biased_overlap, def3_1. rewrite genes_of_strs.
  cbn [bind]. unfold enumerate.
  change (Fin 0) with (of_Z 0).
  rewrite rbo_loop_series. cbn [bind array_like].
  rewrite Z.sub_0_r, Z.add_0_l. reflexivity.
Qed.

(** The ranked values must be a Series.  On a plain list of values, as
    [expr_format] builds, the first pass of the loop fails with
    [TypeError] since a list has no index to take a set of; only for an
    empty gene set, where the loop does not run, the call returns, with
    score 0.0 and the MAD of the values. *)
Theorem rank_biased_overlap_on_list :
  forall (x limit : pyobj) (su : list float64) (gs : list string),
    rank_biased_overlap [x; floats su; strs gs; limit]
    = match gs with
      | [] => Ok (pair (Fin 0) (mad su))
      | _ :: _ => Raise TypeError
      end.
Proof.
  intros x limit su gs.
  unfold rank_biased_overlap, def3_1. rewrite genes_of_strs. cbn [bind].
  destruct gs as [|g gs].
  - cbn [enumerate enumerate_from rbo_loop bind]. rewrite array_like_floats.
    reflexivity.
  - reflexivity.
Qed.

Lemma overlaps_from_app (y : Series) (gs : list string) :
  forall (n d first : nat),
    overlaps_from y gs first (n + d)
    = (overlaps_from y gs first n + overlaps_from y gs (first + n) d)%Z.
Proof.
  unfold overlaps_from.
  induction n as [|n IH]; intros d first.
  - rewrite Nat.add_0_r. reflexivity.
  - cbn [Nat.add seq fold_right]. rewrite IH.
    replace (S first + n)%nat with (first + S n)%nat by lia. lia.
Qed.

Lemma overlaps_from_nonneg (y : Series) (gs : list string) :
  forall (n first : nat), (0 <= overlaps_from y gs first n)%Z.
Proof.
  unfold overlaps_from.
  induction n as [|n IH]; intros first; cbn [seq fold_right]; [lia|].
  specialize (IH (S first)). lia.
Qed.

Lemma prefixes_scored_mono (n : nat) (limit1 limit2 : Z) :
  (limit1 <= limit2)%Z ->
  (prefixes_scored n limit1 <= prefixes_scored n limit2)%nat.
Proof. unfold prefixes_scored. lia. Qed.

(** A larger limit never lowers the score: the scores for two limits
    are the non-negative integers [s1 <= s2] when [limit1 <= limit2],
    and the dispersion is the same. *)
Theorem rank_biased_overlap_limit_monotone :
  forall (x : pyobj) (y : Series) (gs : list string) (limit1 limit2 : Z),
    (limit1 <= limit2)%Z ->
    exists s1 s2 : Z,
      rank_biased_overlap [x; PSeries y; strs gs; PInt limit1]
      = Ok (pair (of_Z s1) (mad (series_values y))) /\
      rank_biased_overlap [x; PSeries y; strs gs; PInt limit2]
      = Ok (pair (of_Z s2) (mad (series_values y))) /\
      (0 <= s1 <= s2)%Z.
Proof.
  intros x y gs limit1 limit2 H.
  do 2 eexists. rewrite !rank_biased_overlap_series.
  split; [reflexivity|]. split; [reflexivity|].
  pose proof (prefixes_scored_mono (length gs) _ _ H) as Hn.
  unfold cumulative_overlap.
  replace (prefixes_scored (length gs) limit2)
    with (prefixes_scored (length gs) limit1
          + (prefixes_scored (length gs) limit2 - prefixes_scored (length gs) limit1))%nat
    by lia.
  rewrite overlaps_from_app.
  pose proof (overlaps_from_nonneg y gs (prefixes_scored (length gs) limit1) 1).
  pose proof (overlaps_from_nonneg y gs
                (prefixes_scored (length gs) limit2 - prefixes_scored (length gs) limit1)
                (1 + prefixes_scored (length gs) limit1)).
  lia.
Qed.

(** Limits 0 and 1 on the example ranking. *)
Lemma rank_biased_overlap_limit_monotone_witness :
  (0 <= 1)%Z /\
  exists s1 s2 : Z,
    rank_biased_overlap [PNone; PSeries rbo_example_su; strs rbo_example_gs; PInt 0]
    = Ok (pair (of_Z s1) (mad (series_values rbo_example_su))) /\
    rank_biased_overlap [PNone; PSeries rbo_example_su; strs rbo_example_gs; PInt 1]
    = Ok (pair (of_Z s2) (mad (series_values rbo_example_su))) /\
    (0 <= s1 <= s2)%Z.
Proof.
  split; [lia|].
  apply (rank_biased_overlap_limit_monotone PNone rbo_example_su rbo_example_gs 0 1).
  lia.
Defined.

(** A limit of at least the number of genes less two does not cut the
    loop short: every gene of the gene set gets its prefix scored.  The
    default limit of 100 therefore leaves gene sets of up to 102 genes
    whole. *)
Theorem rank_biased_overlap_uncut :
  forall (x : pyobj) (y : Series) (gs : list string),
    (forall limit : Z,
        (Z.of_nat (length gs) <= limit + 2)%Z ->
        rank_biased_overlap [x; PSeries y; strs gs; PInt limit]
        = Ok (pair (of_Z (cumulative_overlap y gs (length gs)))
                   (mad (series_values y)))) /\
    ((length gs <= 102)%nat ->
     rank_biased_overlap [x; PSeries y; strs gs]
     = Ok (pair (of_Z (cumulative_overlap y gs (length gs)))
                (mad (series_values y)))).
Proof.
  intros x y gs.
  assert (H : forall limit : Z,
             (Z.of_nat (length gs) <= limit + 2)%Z ->
             rank_biased_overlap [x; PSeries y; strs gs; PInt limit]
             = Ok (pair (of_Z (cumulative_overlap y gs (length gs)))
                        (mad (series_values y)))).
  { intros limit Hl. rewrite rank_biased_overlap_series.
    replace (prefixes_scored (length gs) limit) with (length gs)
      by (unfold prefixes_scored; lia).
    reflexivity. }
  split; [exact H|].
  intros Hlen.
  change (rank_biased_overlap [x; PSeries y; strs gs])
    with (rank_biased_overlap [x; PSeries y; strs gs; PInt 100]).
  apply H. lia.
Qed.

(** Three genes, with the default limit. *)
Lemma rank_biased_overlap_uncut_witness :
  (length rbo_example_gs <= 102)%nat /\
  rank_biased_overlap [PNone; PSeries rbo_example_su; strs rbo_example_gs]
  = Ok (pair (of_Z (cumulative_overlap rbo_example_su rbo_example_gs 3))
             (mad (series_values rbo_example_su))).
Proof.
  assert (H : (length rbo_example_gs <= 102)%nat) by (simpl; lia).
  split; [exact H|].
  exact (proj2 (rank_biased_overlap_uncut PNone rbo_example_su rbo_example_gs) H).
Defined.

Lemma In_firstn {A : Type} (k : nat) (l : list A) (a : A) :
  In a (firstn k l) -> In a l.
Proof.
  intros H. rewrite <- (firstn_skipn k l). apply in_or_app. left. exact H.
Qed.

Lemma NoDup_firstn_prefix {A : Type} (k : nat) (l : list A) :
  NoDup l -> NoDup (firstn k l).
Proof.
  intros H. rewrite <- (firstn_skipn k l) in H.
  apply NoDup_app_remove_r in H. exact H.
Qed.

Lemma prefix_overlap_within (y : Series) (gs : list string) (k : nat) :
  NoDup (series_index y) ->
  (forall j, In j (series_index y) -> In j gs) ->
  prefix_overlap y gs k = Nat.min k (length y).
Proof.
  intros Hnd Hin. unfold prefix_overlap, set, intersection, series_index.
  rewrite <- firstn_map.
  rewrite nodup_fixed_point by (apply NoDup_firstn_prefix, Hnd).
  rewrite forallb_filter_id.
  - rewrite length_firstn, length_map. reflexivity.
  - apply forallb_forall. intros j Hj.
    apply existsb_exists. exists j. split.
    + apply Hin. exact (In_firstn _ _ _ Hj).
    + apply String.eqb_refl.
Qed.

Lemma overlaps_from_within (y : Series) (gs : list string) :
  NoDup (series_index y) ->
  (forall j, In j (series_index y) -> In j gs) ->
  forall (n first : nat),
    overlaps_from y gs first n
    = fold_right (fun k s => (Z.of_nat (Nat.min k (length y)) + s)%Z) 0%Z (seq first n).
Proof.
  intros Hnd Hin. unfold overlaps_from.
  induction n as [|n IH]; intros first; cbn [seq fold_right]; [reflexivity|].
  rewrite IH, (prefix_overlap_within y gs first Hnd Hin). reflexivity.
Qed.

Lemma capped_sum_below (m : nat) :
  forall (n first : nat),
    (first + n <= m + 1)%nat ->
    (2 * fold_right (fun k s => (Z.of_nat (Nat.min k m) + s)%Z) 0%Z (seq first n)
     = Z.of_nat n * (2 * Z.of_nat first + Z.of_nat n - 1))%Z.
Proof.
  induction n as [|n IH]; intros first H; cbn [seq fold_right]; [lia|].
  specialize (IH (S first) ltac:(lia)).
  replace (Nat.min first m) with first by lia. nia.
Qed.

(** When the ranked values are what the docstring says, the genes of
    the gene set (distinct labels, each in the gene set), the score does
    not depend on the ranking: it is the sum of [min k m] over the
    scored prefix lengths k, for a ranking of m genes, and it is
    n (n + 1) / 2 when the n scored prefixes are no longer than the
    ranking. *)
Theorem rank_biased_overlap_within_gene_set :
  forall (x : pyobj) (y : Series) (gs : list string) (limit : Z),
    NoDup (series_index y) ->
    (forall j, In j (series_index y) -> In j gs) ->
    exists s : Z,
      rank_biased_overlap [x; PSeries y; strs gs; PInt limit]
      = Ok (pair (of_Z s) (mad (series_values y))) /\
      s = capped_lengths (length y) (prefixes_scored (length gs) limit) /\
      ((prefixes_scored (length gs) limit <= length y)%nat ->
       (2 * s = Z.of_nat (prefixes_scored (length gs) limit)
                * (Z.of_nat (prefixes_scored (length gs) limit) + 1))%Z).
Proof.
  intros x y gs limit Hnd Hin.
  exists (capped_lengths (length y) (prefixes_scored (length gs) limit)).
  rewrite rank_biased_overlap_series. unfold cumulative_overlap.
  rewrite (overlaps_from_within y gs Hnd Hin). fold (capped_lengths (length y)
    (prefixes_scored (length gs) limit)).
  split; [reflexivity|]. split; [reflexivity|].
  intros Hle. unfold capped_lengths.
  rewrite capped_sum_below by lia. lia.
Qed.

(** Two genes of the gene set, ranked C before A, with limit 1. *)
Lemma rank_biased_overlap_within_gene_set_witness :
  NoDup (series_index rbo_example_within) /\
  exists s : Z,
    rank_biased_overlap [PNone; PSeries rbo_example_within; strs rbo_example_gs; PInt 1]
    = Ok (pair (of_Z s) (mad (series_values rbo_example_within))) /\
    s = capped_lengths 2 3 /\
    ((prefixes_scored (length rbo_example_gs) 1 <= length rbo_example_within)%nat ->
     (2 * s = Z.of_nat (prefixes_scored (length rbo_example_gs) 1)
              * (Z.of_nat (prefixes_scored (length rbo_example_gs) 1) + 1))%Z).
Proof.
  assert (Hnd : NoDup (series_index rbo_example_within)).
  { repeat constructor; simpl; intuition discriminate. }
  split; [exact Hnd|].
  apply (rank_biased_overlap_within_gene_set PNone rbo_example_within
           rbo_example_gs 1 Hnd).
  intros j [<- | [<- | []]]; simpl; auto.
Defined.

(** * Signs of scores and dispersions *)

Lemma never_negative_fin (q : Q) : 0 <= q -> never_negative (fin q) = true.
Proof.
  intros H. unfold fin, never_negative. apply Qle_bool_iff.
  rewrite Qred_correct. exact H.
Qed.

Lemma never_negative_Fin (q : Q) : never_negative (Fin q) = true -> 0 <= q.
Proof. intros H. apply Qle_bool_iff. exact H. Qed.

Lemma Qneg_b_nonneg (q : Q) : 0 <= q -> Qneg_b q = false.
Proof.
  unfold Qneg_b, Qle. simpl. intros H. apply Z.ltb_ge. lia.
Qed.

Lemma never_negative_add (u v : float64) :
  never_negative u = true -> never_negative v = true ->
  never_negative (f_add u v) = true.
Proof.
  destruct u as [a | | |], v as [b | | |]; cbn [f_add never_negative];
    intros Hu Hv; try discriminate; try reflexivity.
  apply never_negative_fin.
  apply never_negative_Fin in Hu. apply never_negative_Fin in Hv.
  change 0 with (0 + 0). apply Qplus_le_compat; assumption.
Qed.

Lemma never_negative_div (u v : float64) :
  never_negative u = true -> never_negative v = true ->
  never_negative (f_div u v) = true.
Proof.
  destruct u as [a | | |], v as [b | | |]; cbn [f_div never_negative];
    intros Hu Hv; try discriminate; try reflexivity.
  - apply never_negative_Fin in Hu. apply never_negative_Fin in Hv.
    destruct (Qzero_b b) eqn:Eb.
    + destruct (Qzero_b a); [reflexivity|].
      rewrite (Qneg_b_nonneg a Hu). reflexivity.
    + apply never_negative_fin.
      assert (Hb : 0 < b).
      { apply Qle_lt_or_eq in Hv. destruct Hv as [Hv | Hv]; [exact Hv|].
        unfold Qzero_b in Eb. apply Z.eqb_neq in Eb.
        unfold Qeq in Hv. simpl in Hv. lia. }
      apply Qle_shift_div_l; [exact Hb|]. rewrite Qmult_0_l. exact Hu.
  - apply never_negative_Fin in Hv. rewrite (Qneg_b_nonneg b Hv). reflexivity.
Qed.

Lemma never_negative_abs (u : float64) : never_negative (f_abs u) = true.
Proof.
  destruct u as [a | | |]; cbn [f_abs never_negative]; try reflexivity.
  apply never_negative_fin, Qabs_nonneg.
Qed.

Lemma never_negative_sqrt (u : float64) : never_negative (f_sqrt u) = true.
Proof.
  destruct u as [a | | |]; cbn [f_sqrt never_negative]; try reflexivity.
  destruct (Qneg_b a); [reflexivity|].
  unfold Qsqrt. apply (never_negative_fin (_ # _)).
  unfold Qle. simpl. rewrite Z.mul_1_r. apply Z.sqrt_nonneg.
Qed.

Lemma never_negative_of_nat (n : nat) : never_negative (of_nat n) = true.
Proof.
  unfold of_nat, of_Z, never_negative. apply Qle_bool_iff.
  unfold Qle. simpl. lia.
Qed.

Lemma never_negative_fold_add (l : list float64) :
  Forall (fun v => never_negative v = true) l ->
  forall u, never_negative u = true -> never_negative (fold_left f_add l u) = true.
Proof.
  induction 1 as [|v l Hv _ IH]; intros u Hu; simpl; [exact Hu|].
  apply IH, never_negative_add; assumption.
Qed.

Lemma never_negative_mean (l : list float64) :
  Forall (fun v => never_negative v = true) l -> never_negative (np.mean l) = true.
Proof.
  intros H. unfold np.mean, np.sum.
  apply never_negative_div; [|apply never_negative_of_nat].
  apply never_negative_fold_add; [exact H | reflexivity].
Qed.

Lemma never_negative_insert (v : float64) (s : list float64) :
  never_negative v = true ->
  Forall (fun w => never_negative w = true) s ->
  Forall (fun w => never_negative w = true) (np.insert v s).
Proof.
  intros Hv. induction 1 as [|w s Hw Hs IH]; simpl.
  - constructor; [exact Hv | constructor].
  - destruct (f_leb v w); constructor; auto.
Qed.

Lemma never_negative_sort (l : list float64) :
  Forall (fun w => never_negative w = true) l ->
  Forall (fun w => never_negative w = true) (np.sort l).
Proof.
  induction 1 as [|v l Hv _ IH]; simpl; [constructor|].
  apply never_negative_insert; assumption.
Qed.

Lemma never_negative_nth (s : list float64) (k : nat) :
  Forall (fun w => never_negative w = true) s -> never_negative (nth k s NaN) = true.
Proof.
  intros H. revert k. induction H as [|v s Hv _ IH]; intros [|k]; simpl; auto.
Qed.

Lemma never_negative_median (l : list float64) :
  Forall (fun w => never_negative w = true) l -> never_negative (np.median l) = true.
Proof.
  intros H. unfold np.median.
  destruct (existsb is_nan l); [reflexivity|].
  destruct (length l) as [|n]; [reflexivity|].
  pose proof (never_negative_sort l H) as Hs.
  destruct (Nat.even (S n)).
  - apply never_negative_mean. repeat constructor; apply never_negative_nth, Hs.
  - apply never_negative_nth, Hs.
Qed.

Lemma never_negative_scaled (f : float64 -> float64) (d : float64) (xs : list float64) :
  never_negative d = true ->
  Forall (fun w => never_negative w = true) (map (fun x => f_div (np.abs (f x)) d) xs).
Proof.
  intros Hd. induction xs; simpl; constructor; [|assumption].
  apply never_negative_div; [apply never_negative_abs | exact Hd].
Qed.

Lemma never_negative_std (l : list float64) : never_negative (np.std l) = true.
Proof. apply never_negative_sqrt. Qed.

Lemma never_negative_mad (l : list float64) : never_negative (mad l) = true.
Proof.
  unfold mad. apply never_negative_median.
  apply (never_negative_scaled (fun v => f_sub v (np.median l))).
  reflexivity.
Qed.

(** The z-scores are never negative.  Whatever the values, special
    ones included, when [mean_z] or [robust_std] returns, both the score
    and the dispersion of the pair are [nan], [+inf] or a finite value
    that is at least 0. *)
Theorem z_scores_never_negative :
  forall (exprdat su r : pyobj),
    mean_z [exprdat; su] = Ok r \/ robust_std [exprdat; su] = Ok r ->
    exists score dispersion,
      r = pair score dispersion /\
      never_negative score = true /\
      never_negative dispersion = true.
Proof.
  intros exprdat su r [H | H].
  - unfold mean_z, def2 in H.
    destruct (reduction_values exprdat) as [e|]; [|discriminate H]. cbn [bind] in H.
    destruct (array_like su) as [xs|]; [|discriminate H]. cbn [bind] in H.
    injection H as <-. do 2 eexists. split; [reflexivity|].
    split; [|apply never_negative_std].
    apply never_negative_mean.
    apply (never_negative_scaled (fun x => f_sub x (np.mean e))), never_negative_std.
  - unfold robust_std, def2 in H.
    destruct (array_like exprdat) as [e|]; [|discriminate H]. cbn [bind] in H.
    destruct (array_like su) as [xs|]; [|discriminate H]. cbn [bind] in H.
    injection H as <-. do 2 eexists. split; [reflexivity|].
    split; [|apply never_negative_mad].
    apply never_negative_median.
    apply (never_negative_scaled (fun x => f_sub x (np.median e))), never_negative_mad.
Qed.

(** The column [1, 3] and the values [1, 3, 5, 7]. *)
Lemma z_scores_never_negative_witness :
  mean_z [floats (map of_Z [1; 3]%Z); floats (map of_Z [1; 3; 5; 7]%Z)]
  = Ok (pair (Fin (5 # 2)) (Fin 1)) /\
  exists score dispersion,
    pair (Fin (5 # 2)) (Fin 1) = pair score dispersion /\
    never_negative score = true /\
    never_negative dispersion = true.
Proof.
  assert (H : mean_z [floats (map of_Z [1; 3]%Z); floats (map of_Z [1; 3; 5; 7]%Z)]
              = Ok (pair (Fin (5 # 2)) (Fin 1))) by (vm_compute; reflexivity).
  split; [exact H|].
  exact (z_scores_never_negative _ _ _ (or_introl H)).
Defined.

(** * Further properties of the selector and the combiner *)

Lemma expr_format_none_present (x : DataFrame) (exprdat : Series)
    (genes : list string) :
  present x genes = [] -> expr_format x exprdat genes = Ok ([], 0%Z).
Proof.
  intros Hp. destruct (expr_format x exprdat genes) as [[su k]|e] eqn:E.
  - unfold expr_format in E.
    destruct (expr_format_loop_returns x exprdat genes [] su _ _ E)
      as [values [-> [Hv ->]]].
    rewrite Hp in Hv. destruct values; [|discriminate Hv].
    pose proof (present_absent_length x genes) as Hlen. rewrite Hp in Hlen.
    simpl in *. do 2 f_equal. lia.
  - unfold expr_format in E. apply expr_format_loop_raises in E.
    destruct E as [_ [j [Hin [Hj _]]]].
    assert (Hjp : In j (present x genes)) by (apply filter_In; auto).
    rewrite Hp in Hjp. destruct Hjp.
Qed.

Lemma dict_get_missing (d : dict) (k : string) :
  ~ In k (map fst d) -> dict_get d k = Raise KeyError.
Proof.
  induction d as [|[k' v] d IH]; simpl; intros H; [reflexivity|].
  destruct (String.eqb k k') eqn:E.
  - apply String.eqb_eq in E. subst. exfalso. apply H. left. reflexivity.
  - apply IH. intros Hin. apply H. right. exact Hin.
Qed.

Lemma flag_eq_exclusive (ranked : flag) (b : bool) :
  flag_eq ranked b = true -> flag_eq ranked (negb b) = false.
Proof.
  destruct ranked as [c | z | [q | | |] | | s]; simpl; intros H; try discriminate H.
  - destruct c, b; try discriminate H; reflexivity.
  - apply Z.eqb_eq in H. subst. destruct b; reflexivity.
  - apply Qeq_bool_iff in H.
    destruct (Qeq_bool q (if negb b then 1 else 0)) eqn:E; [|reflexivity].
    apply Qeq_bool_iff in E. rewrite H in E. destruct b; discriminate E.
Qed.

Section ScoreFunsFurther.

Variable normalisation :
  pyobj -> Z -> pyobj -> float64 -> pyobj -> result float64.

Local Open Scope string_scope.

(** A failure of the extraction comes before the dispatch: whatever the
    method name, supported or not, [method_selector] raises what
    [expr_format] raises. *)
Theorem method_selector_extraction_first :
  forall (gs : GeneSet) (x : DataFrame) (exprdat : Series) (genes : list string)
         (method : string) (method_params : dict) (e : exn),
    expr_format x exprdat genes = Raise e ->
    method_selector normalisation gs x exprdat genes method method_params = Raise e.
Proof.
  intros gs x exprdat genes method method_params e H.
  unfold method_selector. rewrite H. reflexivity.
Qed.

(** The parameters are looked up by key when the method needs them:
    once the extraction has succeeded, [singscore] without the key
    [normalization] and [rank_biased_overlap] without the key
    [rbo_depth] raise [KeyError]. *)
Theorem method_selector_missing_key :
  forall (gs : GeneSet) (x : DataFrame) (exprdat : Series) (genes : list string)
         (method_params : dict),
    indexed_like x exprdat ->
    (~ In "normalization" (map fst method_params) ->
     method_selector normalisation gs x exprdat genes "singscore" method_params
     = Raise KeyError) /\
    (~ In "rbo_depth" (map fst method_params) ->
     method_selector normalisation gs x exprdat genes "rank_biased_overlap" method_params
     = Raise KeyError).
Proof.
  intros gs x exprdat genes method_params Hcol.
  unfold method_selector.
  destruct (expr_format_total x exprdat genes Hcol) as [su ->]. cbn [bind].
  split; intros H; simpl; rewrite (dict_get_missing _ _ H); reflexivity.
Qed.

(** When no gene of the list is in the table, the selector runs the
    method on an empty value sequence: [summed_up] gives the score 0.0
    with a [nan] dispersion, [mean_z] and [robust_std] give a [nan]
    score with the dispersion of the whole column. *)
Theorem method_selector_no_gene_matched :
  forall (gs : GeneSet) (x : DataFrame) (exprdat : Series) (genes : list string)
         (method_params : dict),
    present x genes = [] ->
    method_selector normalisation gs x exprdat genes "summed_up" method_params
    = Ok (pair (Fin 0) NaN) /\
    method_selector normalisation gs x exprdat genes "mean_z" method_params
    = Ok (pair NaN
            (np.std (filter (fun v => negb (is_nan v)) (series_values exprdat)))) /\
    method_selector normalisation gs x exprdat genes "robust_std" method_params
    = Ok (pair NaN (mad (series_values exprdat))).
Proof.
  intros gs x exprdat genes method_params Hp.
  unfold method_selector.
  rewrite (expr_format_none_present x exprdat genes Hp). cbn [bind].
  repeat split.
Qed.

(** [scorefun] cannot run the methods [median_score] and
    [average_score]: for every table, gene set, mode and flag that
    select a branch, the call fails with [TypeError]. *)
Theorem scorefun_arity_failure :
  forall (gs : GeneSet) (x : DataFrame) (method_params : dict) (barcode : string)
         (ranked : flag),
    mode_known (mode gs) && flag_known ranked = true ->
    scorefun normalisation gs x "median_score" method_params barcode ranked
    = Raise TypeError /\
    scorefun normalisation gs x "average_score" method_params barcode ranked
    = Raise TypeError.
Proof.
  intros gs x method_params barcode ranked H.
  assert (Hsel : forall col genes,
    method_selector normalisation gs x (map (fun r => (gene r, col r)) x) genes
      "median_score" method_params = Raise TypeError /\
    method_selector normalisation gs x (map (fun r => (gene r, col r)) x) genes
      "average_score" method_params = Raise TypeError).
  { intros col genes.
    destruct (method_selector_arity normalisation gs x _ genes method_params PNone
                (column_indexed_like col x)) as [H1 [H2 _]].
    split; assumption. }
  unfold scorefun, counts, uprank, dnrank. unfold mode_known, flag_known in H.
  destruct (mode gs =? "UP"), (mode gs =? "DN"), (mode gs =? "BOTH"),
    (flag_eq ranked false), (flag_eq ranked true);
    simpl in H; try discriminate H; cbn [andb];
    rewrite ?(proj1 (Hsel _ _)), ?(proj2 (Hsel _ _)); split; reflexivity.
Qed.

(** A flag that compares equal to a boolean acts as that boolean: the
    integer 1 gives the result of the ranked paths, 0 that of the
    unranked ones. *)
Theorem scorefun_flag_as_boolean :
  forall (gs : GeneSet) (x : DataFrame) (method : string) (method_params : dict)
         (barcode : string) (ranked : flag) (b : bool),
    flag_eq ranked b = true ->
    scorefun normalisation gs x method method_params barcode ranked
    = scorefun normalisation gs x method method_params barcode (FBool b).
Proof.
  intros gs x method method_params barcode ranked b H.
  pose proof (flag_eq_exclusive ranked b H) as H'.
  unfold scorefun. destruct b; simpl in H'; rewrite H, H'; reflexivity.
Qed.

End ScoreFunsFurther.

(** The integer 1 on the example table. *)
Lemma scorefun_flag_as_boolean_witness :
  flag_eq (FInt 1) true = true /\
  scorefun example_normalisation (example_geneset "DN") example_table
    "mean_z" [] "cell" (FInt 1)
  = scorefun example_normalisation (example_geneset "DN") example_table
      "mean_z" [] "cell" (FBool true).
Proof.
  split; [reflexivity|].
  apply scorefun_flag_as_boolean. reflexivity.
Defined.

(** Mode BOTH with a boolean flag. *)
Lemma scorefun_arity_failure_witness :
  mode_known (mode (example_geneset "BOTH")) && flag_known (FBool false) = true /\
  scorefun example_normalisation (example_geneset "BOTH") example_table
    "median_score" [] "cell" (FBool false)
  = Raise TypeError.
Proof.
  split; [reflexivity|].
  apply (scorefun_arity_failure example_normalisation (example_geneset "BOTH")
           example_table [] "cell" (FBool false)).
  reflexivity.
Defined.

(** A gene list with no gene of the example table. *)
Lemma method_selector_no_gene_matched_witness :
  present example_table ["Y"; "Z"]%string = [] /\
  method_selector example_normalisation (example_geneset "UP") example_table
    (counts example_table) ["Y"; "Z"]%string "summed_up" []
  = Ok (pair (Fin 0) NaN).
Proof.
  split; [reflexivity|].
  apply (method_selector_no_gene_matched example_normalisation (example_geneset "UP")
           example_table (counts example_table) ["Y"; "Z"]%string []).
  reflexivity.
Defined.

(** No parameters at all. *)
Lemma method_selector_missing_key_witness :
  indexed_like example_table (uprank example_table) /\
  method_selector example_normalisation (example_geneset "UP") example_table
    (uprank example_table) ["A"; "C"]%string "singscore" []
  = Raise KeyError.
Proof.
  split; [apply uprank_indexed_like|].
  apply (method_selector_missing_key example_normalisation (example_geneset "UP")
           example_table (uprank example_table) ["A"; "C"]%string []
           (uprank_indexed_like example_table)).
  simpl. tauto.
Defined.

(** A value column that lacks the gene C of the table. *)
Lemma method_selector_extraction_first_witness :
  expr_format example_table [("A", of_Z 1)]%string ["A"; "C"]%string = Raise KeyError /\
  method_selector example_normalisation (example_geneset "UP") example_table
    [("A", of_Z 1)]%string ["A"; "C"]%string "no_such_method" []
  = Raise KeyError.
Proof.
  split; [reflexivity|].
  apply method_selector_extraction_first. reflexivity.
Defined.

(** * What the selector and the combiner return *)

Section ScoreFunsResults.

Variable normalisation :
  pyobj -> Z -> pyobj -> float64 -> pyobj -> result float64.

Local Open Scope string_scope.

(** A result of [method_selector] is the string ["ERROR"] or a pair
    whose dispersion is never negative. *)
Lemma method_selector_returns (gs : GeneSet) (x : DataFrame) (exprdat : Series)
    (genes : list string) (method : string) (method_params : dict) (r : pyobj) :
  method_selector normalisation gs x exprdat genes method method_params = Ok r ->
  r = PStr "ERROR" \/
  exists score dispersion, r = pair score dispersion /\ never_negative dispersion = true.
Proof.
  unfold method_selector. intros H.
  destruct (expr_format x exprdat genes) as [[su k]|]; [|discriminate H].
  cbn [bind] in H.
  destruct (method =? "singscore").
  { destruct (dict_get method_params "normalization") as [nm|]; [|discriminate H].
    cbn [bind] in H. unfold singscore, def4 in H.
    rewrite reduction_values_floats in H. cbn [bind attr_index] in H.
    destruct (normalisation _ _ _ _ _) as [n|]; [|discriminate H].
    cbn [bind] in H. rewrite array_like_floats in H. cbn [bind] in H.
    injection H as <-. right. do 2 eexists. split; [reflexivity|].
    apply never_negative_mad. }
  destruct (method =? "robust_std").
  { unfold robust_std, def2 in H. cbn [array_like bind] in H.
    rewrite array_like_floats in H. cbn [bind] in H.
    injection H as <-. right. do 2 eexists. split; [reflexivity|].
    apply never_negative_mad. }
  destruct (method =? "summed_up").
  { unfold summed_up, def1 in H.
    rewrite array_like_floats, reduction_values_floats in H. cbn [bind] in H.
    injection H as <-. right. do 2 eexists. split; [reflexivity|].
    apply never_negative_mad. }
  destruct (method =? "median_score"); [discriminate H|].
  destruct (method =? "average_score"); [discriminate H|].
  destruct (method =? "mean_z").
  { unfold mean_z, def2 in H. cbn [reduction_values bind] in H.
    rewrite array_like_floats in H. cbn [bind] in H.
    injection H as <-. right. do 2 eexists. split; [reflexivity|].
    apply never_negative_std. }
  destruct (method =? "rank_biased_overlap").
  { destruct (dict_get method_params "rbo_depth"); discriminate H. }
  injection H as <-. left. reflexivity.
Qed.

Lemma score_single_returns (gs : GeneSet) (barcode : string)
    (sel : result pyobj) (d : dict) :
  (forall r, sel = Ok r ->
     r = PStr "ERROR" \/
     exists score dispersion, r = pair score dispersion /\ never_negative dispersion = true) ->
  (res0 <- sel ;;
   score <- getitem res0 0 ;;
   var <- getitem res0 1 ;;
   Ok (score_result barcode gs score var)) = Ok d ->
  exists score var, d = score_result barcode gs score var /\ var_of_selector var.
Proof.
  intros Hsel H. destruct sel as [r|]; [|discriminate H].
  destruct (Hsel r eq_refl) as [-> | [s [v [-> Hv]]]];
    cbn in H; injection H as <-; do 2 eexists; (split; [reflexivity|]).
  - left. reflexivity.
  - right. right. exists v. split; [reflexivity | exact Hv].
Qed.

Lemma score_both_returns (gs : GeneSet) (barcode : string)
    (sel_up sel_dn : result pyobj) (d : dict) :
  (forall r, sel_up = Ok r ->
     r = PStr "ERROR" \/
     exists score dispersion, r = pair score dispersion /\ never_negative dispersion = true) ->
  (forall r, sel_dn = Ok r ->
     r = PStr "ERROR" \/
     exists score dispersion, r = pair score dispersion /\ never_negative dispersion = true) ->
  (res0_up <- sel_up ;;
   res0_dn <- sel_dn ;;
   up0 <- getitem res0_up 0 ;;
   dn0 <- getitem res0_dn 0 ;;
   score <- py_add up0 dn0 ;;
   up1 <- getitem res0_up 1 ;;
   dn1 <- getitem res0_dn 1 ;;
   var <- py_add up1 dn1 ;;
   Ok (score_result barcode gs score var)) = Ok d ->
  exists score var, d = score_result barcode gs score var /\ var_of_selector var.
Proof.
  intros Hup Hdn H.
  destruct sel_up as [ru|]; [|discriminate H].
  destruct sel_dn as [rd|]; [|discriminate H].
  destruct (Hup ru eq_refl) as [-> | [s1 [v1 [-> Hv1]]]];
    destruct (Hdn rd eq_refl) as [-> | [s2 [v2 [-> Hv2]]]];
    cbn in H; try discriminate H;
    injection H as <-; do 2 eexists; (split; [reflexivity|]).
  - right. left. reflexivity.
  - right. right. eexists. split; [reflexivity|].
    apply never_negative_add; assumption.
Qed.

Lemma scorefun_returns (gs : GeneSet) (x : DataFrame) (method : string)
    (method_params : dict) (barcode : string) (ranked : flag) (d : dict) :
  scorefun normalisation gs x method method_params barcode ranked = Ok d ->
  exists score var, d = score_result barcode gs score var /\ var_of_selector var.
Proof.
  unfold scorefun. intros H.
  repeat match type of H with
         | (if ?c then _ else _) = _ => destruct c
         end;
    try discriminate H;
    first [ apply (score_single_returns gs barcode _ d
                     (fun r => method_selector_returns _ _ _ _ _ _ r)) in H; exact H
          | apply (score_both_returns gs barcode _ _ d
                     (fun r => method_selector_returns _ _ _ _ _ _ r)
                     (fun r => method_selector_returns _ _ _ _ _ _ r)) in H; exact H ].
Qed.

End ScoreFunsResults.

(** Whenever [scorefun] returns, the record has the five keys barcode,
    name, mode, score and var, in this order, and its barcode, name and
    mode are the barcode passed in and the name and mode of the gene
    set. *)
Theorem scorefun_record_fields :
  forall (normalisation : pyobj -> Z -> pyobj -> float64 -> pyobj -> result float64)
         (gs : GeneSet) (x : DataFrame) (method : string) (method_params : dict)
         (barcode : string) (ranked : flag) (d : dict),
    scorefun normalisation gs x method method_params barcode ranked = Ok d ->
    map fst d = record_keys /\
    dict_get d "barcode" = Ok (PStr barcode) /\
    dict_get d "name" = Ok (PStr (name gs)) /\
    dict_get d "mode" = Ok (PStr (mode gs)).
Proof.
  intros normalisation gs x method method_params barcode ranked d H.
  destruct (scorefun_returns normalisation gs x method method_params barcode ranked d H)
    as [score [var [-> _]]].
  repeat split.
Qed.

(** Mode DN on ranks, with the mean_z method. *)
Lemma scorefun_record_fields_witness :
  exists d,
    scorefun example_normalisation (example_geneset "DN") example_table
      "mean_z" [] "cell" (FBool true) = Ok d /\
    map fst d = record_keys /\
    dict_get d "barcode" = Ok (PStr "cell") /\
    dict_get d "name" = Ok (PStr "sig") /\
    dict_get d "mode" = Ok (PStr "DN").
Proof.
  destruct (scorefun example_normalisation (example_geneset "DN") example_table
              "mean_z" [] "cell" (FBool true)) as [d|e] eqn:E;
    [|vm_compute in E; discriminate E].
  exists d. split; [reflexivity|].
  exact (scorefun_record_fields example_normalisation (example_geneset "DN")
           example_table "mean_z" [] "cell" (FBool true) d E).
Defined.

(** The var of a record is never a negative number: whenever
    [scorefun] returns a record whose var is a number, that number is
    [nan], [+inf] or a finite value that is at least 0, in the single
    modes and, as a sum of two dispersions, in mode BOTH. *)
Theorem scorefun_var_never_negative :
  forall (normalisation : pyobj -> Z -> pyobj -> float64 -> pyobj -> result float64)
         (gs : GeneSet) (x : DataFrame) (method : string) (method_params : dict)
         (barcode : string) (ranked : flag) (d : dict) (v : float64),
    scorefun normalisation gs x method method_params barcode ranked = Ok d ->
    dict_get d "var" = Ok (PFloat v) ->
    never_negative v = true.
Proof.
  intros normalisation gs x method method_params barcode ranked d v H Hvar.
  destruct (scorefun_returns normalisation gs x method method_params barcode ranked d H)
    as [score [var [-> Hv]]].
  cbn in Hvar. injection Hvar as ->.
  destruct Hv as [Hv | [Hv | [w [Hw Hnn]]]]; try discriminate Hv.
  injection Hw as ->. exact Hnn.
Qed.

(** Mode BOTH on ranks, with the summed_up method. *)
Lemma scorefun_var_never_negative_witness :
  exists d v,
    scorefun example_normalisation (example_geneset "BOTH") example_table
      "summed_up" [] "cell" (FBool true) = Ok d /\
    dict_get d "var" = Ok (PFloat v) /\
    never_negative v = true.
Proof.
  destruct (scorefun example_normalisation (example_geneset "BOTH") example_table
              "summed_up" [] "cell" (FBool true)) as [d|e] eqn:E;
    [|vm_compute in E; discriminate E].
  destruct (dict_get d "var") as [[| |v| | | | | |]|e] eqn:Ev;
    try (exfalso; vm_compute in E; injection E as <-; vm_compute in Ev; discriminate Ev).
  exists d, v. split; [reflexivity|]. split; [exact Ev|].
  exact (scorefun_var_never_negative example_normalisation (example_geneset "BOTH")
           example_table "summed_up" [] "cell" (FBool true) d v E Ev).
Defined.

(** A method name that is not supported, in mode BOTH. *)
Lemma scorefun_unknown_method_witness :
  supported "no_such_method" = false /\
  exists d : dict,
    scorefun example_normalisation (example_geneset "BOTH") example_table
      "no_such_method" [] "cell" (FBool true) = Ok d /\
    dict_get d "score" = Ok (PStr "EE") /\
    dict_get d "var" = Ok (PStr "RR").
Proof.
  split; [reflexivity|].
  apply (proj2 (scorefun_unknown_method example_normalisation (example_geneset "BOTH")
                  example_table "no_such_method" [] "cell" true eq_refl)).
  reflexivity.
Defined.

(** * The gene set and the collaborator in the selector *)

Lemma method_selector_any_gene_set
    (normalisation : pyobj -> Z -> pyobj -> float64 -> pyobj -> result float64)
    (gs gs' : GeneSet) (x : DataFrame) (exprdat : Series) (genes : list string)
    (method : string) (method_params : dict) :
  method_selector normalisation gs x exprdat genes method method_params
  = method_selector normalisation gs' x exprdat genes method method_params.
Proof.
  unfold method_selector.
  destruct (expr_format x exprdat genes) as [[su k]|]; [|reflexivity]. cbn [bind].
  repeat match goal with
         | |- (if ?c then _ else _) = _ => destruct c; [reflexivity|]
         end.
  destruct (method =? "rank_biased_overlap")%string; [|reflexivity].
  destruct (dict_get method_params "rbo_depth"); reflexivity.
Qed.

(** In a single mode the other gene list is never read: with mode UP
    the result does not depend on the down genes, with mode DN not on
    the up genes. *)
Theorem scorefun_unused_gene_list :
  forall (normalisation : pyobj -> Z -> pyobj -> float64 -> pyobj -> result float64)
         (gs : GeneSet) (x : DataFrame) (method : string) (method_params : dict)
         (barcode : string) (ranked : flag) (other : list string),
    (mode gs = "UP"%string ->
     scorefun normalisation gs x method method_params barcode ranked
     = scorefun normalisation (mk_geneset (name gs) (mode gs) (genes_up gs) other)
         x method method_params barcode ranked) /\
    (mode gs = "DN"%string ->
     scorefun normalisation gs x method method_params barcode ranked
     = scorefun normalisation (mk_geneset (name gs) (mode gs) other (genes_dn gs))
         x method method_params barcode ranked).
Proof.
  intros normalisation gs x method method_params barcode ranked other.
  split; intros Hm; unfold scorefun, score_result;
    cbn [name mode genes_up genes_dn]; rewrite Hm;
    cbn [String.eqb Ascii.eqb Bool.eqb andb];
    destruct (flag_eq ranked false), (flag_eq ranked true); try reflexivity;
    match goal with
    | |- bind (method_selector _ ?g _ _ _ _ _) _ = bind (method_selector _ ?g' _ _ _ _ _) _ =>
        rewrite (method_selector_any_gene_set normalisation g g')
    end; reflexivity.
Qed.

(** Mode UP on the example table, the down genes replaced. *)
Lemma scorefun_unused_gene_list_witness :
  mode (example_geneset "UP") = "UP"%string /\
  scorefun example_normalisation (example_geneset "UP") example_table
    "mean_z" [] "cell" (FBool false)
  = scorefun example_normalisation
      (mk_geneset "sig" "UP" ["A"; "Z"; "C"]%string ["D"]%string) example_table
      "mean_z" [] "cell" (FBool false).
Proof.
  split; [reflexivity|].
  apply (proj1 (scorefun_unused_gene_list example_normalisation (example_geneset "UP")
                  example_table "mean_z" [] "cell" (FBool false) ["D"]%string)).
  reflexivity.
Defined.

(** Through the selector, [singscore] on a column of a table whose
    gene labels are distinct hands
    the collaborator the number of rows of the table as library length,
    the extracted values, their mean as score and the number of matched
    genes as signature length; the result is the collaborator's value
    less 0.5 with the MAD of the extracted values, or the collaborator's
    failure. *)
Theorem method_selector_singscore :
  forall (normalisation : pyobj -> Z -> pyobj -> float64 -> pyobj -> result float64)
         (gs : GeneSet) (x : DataFrame) (col : row -> float64) (genes : list string)
         (method_params : dict) (norm_method : pyobj),
    NoDup (index x) ->
    dict_get method_params "normalization" = Ok norm_method ->
    exists su,
      expr_format x (map (fun r => (gene r, col r)) x) genes
      = Ok (su, Z.of_nat (length (present x genes))) /\
      method_selector normalisation gs x (map (fun r => (gene r, col r)) x) genes
        "singscore" method_params
      = n <- normalisation norm_method (Z.of_nat (length x)) (floats su) (np.mean su)
               (PInt (Z.of_nat (length (present x genes)))) ;;
        Ok (pair (f_sub n (Fin (1 # 2))) (mad su)).
Proof.
  intros normalisation gs x col genes method_params norm_method _ Hn.
  destruct (expr_format_total x _ genes (column_indexed_like col x)) as [su Hsu].
  exists su. split; [exact Hsu|].
  unfold method_selector. rewrite Hsu. cbn [bind String.eqb Ascii.eqb Bool.eqb].
  rewrite Hn. cbn [bind]. unfold singscore, def4.
  rewrite reduction_values_floats. cbn [bind attr_index].
  unfold series_index. rewrite !length_map.
  destruct (normalisation _ _ _ _ _); cbn [bind]; [|reflexivity].
  rewrite array_like_floats. reflexivity.
Qed.

(** The up genes of the example gene set on the uprank column. *)
Lemma method_selector_singscore_witness :
  NoDup (index example_table) /\
  dict_get [("normalization"%string, PStr "standard")] "normalization" = Ok (PStr "standard") /\
  method_selector example_normalisation (example_geneset "UP") example_table
    (uprank example_table) ["A"; "Z"; "C"]%string "singscore"
    [("normalization"%string, PStr "standard")]
  = Ok (pair (Fin (3 # 8)) (mad [of_Z 4; of_Z 3])).
Proof.
  assert (Hnd : NoDup (index example_table)).
  { repeat constructor; simpl; intuition discriminate. }
  split; [exact Hnd|]. split; [reflexivity|].
  destruct (method_selector_singscore example_normalisation (example_geneset "UP")
              example_table row_uprank ["A"; "Z"; "C"]%string
              [("normalization"%string, PStr "standard")] (PStr "standard") Hnd eq_refl)
    as [su [Hsu Hsel]].
  vm_compute in Hsu. injection Hsu as Hsu. subst su.
  etransitivity; [exact Hsel|]. vm_compute. reflexivity.
Defined.
